(** * The restart supervisor of manager/orchestrator/restart.go

    A shallow embedding of [RestartSupervisor] and of its operations
    ([Restart], [shouldRestart], [recordRestartHistory], [DelayStart],
    [StartNow], [Cancel], [CancelAll], [ClearServiceHistory]), followed by
    the properties of the specification, each stated on the embedding. *)

From Stdlib Require Import ZArith NArith Lia.
From stdpp Require Import gmap strings list fin_maps.

Local Open Scope Z_scope.

(** ** Data model *)

(** [time.Time] is an instant and [time.Duration] a signed 64-bit count of
    nanoseconds.  Instants are integers; [Time_Add] is addition and
    [Time_After] the strict order, as in package time. *)
Definition Time := Z.
Definition Duration := Z.

Definition min_int64 : Z := - 2 ^ 63.

(** Unary minus on a [time.Duration]: the least int64 is its own negation. *)
Definition Duration_neg (d : Duration) : Duration :=
  if d =? min_int64 then min_int64 else - d.

Definition Time_Add (t : Time) (d : Duration) : Time := t + d.
Definition Time_After (t u : Time) : bool := u <? t.

(** uint64 arithmetic: [totalRestarts++] wraps at 2^64. *)
Definition uint64_incr (n : N) : N := ((n + 1) mod 2 ^ 64)%N.

(** [api.TaskState] and the state of [api.NodeStatus] are int32 enumerations
    that the code compares numerically; the list of their members is open,
    so they are kept as integers and the members restart.go names are the
    fields of [Imports] below. *)
Definition TaskState := Z.
Definition NodeState := Z.

(** Modelled from the spec: the restart condition is one of ANY, ON_FAILURE
    and NONE (the enumeration is declared in package api). *)
Inductive RestartCondition := RestartOnNone | RestartOnFailure | RestartOnAny.

(** Modelled from the spec: node availability is one of ACTIVE, PAUSE and
    DRAIN (declared in package api). *)
Inductive NodeAvailability :=
  NodeAvailabilityActive | NodeAvailabilityPause | NodeAvailabilityDrain.

(** Modelled from the spec: a service is REPLICATED or GLOBAL; [Restart] has
    a branch for a service that is neither, which the third member stands
    for (the mode is declared in package api). *)
Inductive ServiceMode := ModeReplicated | ModeGlobal | ModeUnsupported.

#[global] Instance RestartCondition_eq_dec : EqDecision RestartCondition.
Proof. solve_decision. Defined.
#[global] Instance NodeAvailability_eq_dec : EqDecision NodeAvailability.
Proof. solve_decision. Defined.
#[global] Instance ServiceMode_eq_dec : EqDecision ServiceMode.
Proof. solve_decision. Defined.

(** The fields of [api.Task] that restart.go reads or writes. *)
Record Task := {
  ID : string;
  ServiceID : string;
  Instance : N;
  NodeID : string;
  DesiredState : TaskState;
  Status_State : TaskState;
  Status_TerminalState : TaskState;
}.

Definition set_DesiredState (s : TaskState) (t : Task) : Task :=
  {| ID := ID t; ServiceID := ServiceID t; Instance := Instance t;
     NodeID := NodeID t; DesiredState := s;
     Status_State := Status_State t;
     Status_TerminalState := Status_TerminalState t |}.

Definition set_NodeID (n : string) (t : Task) : Task :=
  {| ID := ID t; ServiceID := ServiceID t; Instance := Instance t;
     NodeID := n; DesiredState := DesiredState t;
     Status_State := Status_State t;
     Status_TerminalState := Status_TerminalState t |}.

(** [service.Spec.Restart], a pointer: [None] is nil. *)
Record RestartPolicy := {
  Condition : RestartCondition;
  Delay : Duration;
  MaxAttempts : N;
  Window : Duration;
}.

Record ContainerSpec := { StopGracePeriod : Duration }.

Record Service := {
  Service_ID : string;
  Spec_Mode : ServiceMode;
  Spec_Restart : option RestartPolicy;
  Spec_Container : option ContainerSpec;
}.

Record Node := {
  Node_ID : string;
  Node_Status_State : NodeState;
  Node_Spec_Availability : NodeAvailability;
}.

(** The key of the restart history. *)
Record instanceTuple := {
  instance : N;
  serviceID : string;
  nodeID : string;
}.

#[global] Instance instanceTuple_eq_dec : EqDecision instanceTuple.
Proof. solve_decision. Defined.

#[global] Instance instanceTuple_countable : Countable instanceTuple.
Proof.
  refine (inj_countable'
            (fun k => (instance k, serviceID k, nodeID k))
            (fun p => {| instance := p.1.1; serviceID := p.1.2; nodeID := p.2 |})
            _).
  by intros [].
Defined.

Record restartedInstance := { timestamp : Time }.

(** [restartedInstances] is a pointer to a [list.List]: [None] is nil, and
    [Some l] holds the elements from front to back. *)
Record instanceRestartInfo := {
  totalRestarts : N;
  restartedInstances : option (list restartedInstance);
}.

(** A context is the background context or a cancellable child of one;
    the child is named by its cancel function. *)
Inductive Context := Background | WithCancel (parent : Context) (cancel_fn : nat).

(** [cancel] is the cancel function of the loop's context and [doneCh] the
    channel the loop closes when it ends. *)
Record delayedStart := {
  cancel : nat;
  doneCh : nat;
}.

(** The mutable fields of [RestartSupervisor] (the mutex only serialises
    access to them; [store] is passed to the operations that use it). *)
Record RestartSupervisor := {
  delays : gmap string delayedStart;
  history : gmap instanceTuple instanceRestartInfo;
  historyByService : gmap string (gset instanceTuple);
}.

Definition NewRestartSupervisor : RestartSupervisor :=
  {| delays := ∅; history := ∅; historyByService := ∅ |}.

Definition set_history (h : gmap instanceTuple instanceRestartInfo)
    (r : RestartSupervisor) : RestartSupervisor :=
  {| delays := delays r; history := h;
     historyByService := historyByService r |}.

Definition set_delays (d : gmap string delayedStart)
    (r : RestartSupervisor) : RestartSupervisor :=
  {| delays := d; history := history r;
     historyByService := historyByService r |}.

(** Declarations of other files of the repository that restart.go uses:
    the members of the enumerations it names, and [restartCondition], which
    reads the restart condition of a service. *)
Class Imports := {
  TaskStateReady : TaskState;
  TaskStateRunning : TaskState;
  TaskStateShutdown : TaskState;
  TaskStateCompleted : TaskState;
  NodeStatus_DOWN : NodeState;
  restartCondition : Service -> RestartCondition;
}.

(** Modelled from the spec: a service is replicated, or global, when that is
    its mode ([isReplicatedService] and [isGlobalService] are defined in
    another file of the package). *)
Definition isReplicatedService (service : Service) : bool :=
  bool_decide (Spec_Mode service = ModeReplicated).
Definition isGlobalService (service : Service) : bool :=
  bool_decide (Spec_Mode service = ModeGlobal).

(** ** The restart history *)

Section History.
Context {imports : Imports}.

(** The loop of [shouldRestart]: from the front, remove the elements up to
    the first one whose timestamp is after [lookback]. *)
Fixpoint pruneFront (lookback : Time) (l : list restartedInstance)
    : list restartedInstance :=
  match l with
  | [] => []
  | e :: next =>
      if Time_After (timestamp e) lookback then l
      else pruneFront lookback next
  end.

(** The key [shouldRestart] looks up (lines 123 to 132). *)
Definition taskTuple (t : Task) (service : Service) : instanceTuple :=
  {| instance := Instance t;
     serviceID := ServiceID t;
     nodeID := if isGlobalService service then NodeID t else "" |}.

(** [now] is the value of [time.Now()]. *)
Definition shouldRestart (now : Time) (t : Task) (service : Service)
    (r : RestartSupervisor) : bool * RestartSupervisor :=
  let condition := restartCondition service in
  if bool_decide (condition ≠ RestartOnAny)
     && (bool_decide (condition ≠ RestartOnFailure)
         || bool_decide (Status_TerminalState t = TaskStateCompleted))
  then (false, r)
  else
    match Spec_Restart service with
    | None => (true, r)
    | Some policy =>
        if bool_decide (MaxAttempts policy = 0%N) then (true, r)
        else
          let tuple := taskTuple t service in
          match history r !! tuple with
          | None => (true, r)
          | Some restartInfo =>
              if bool_decide (Window policy = 0)
              then ((totalRestarts restartInfo <? MaxAttempts policy)%N, r)
              else
                match restartedInstances restartInfo with
                | None => (true, r)
                | Some l =>
                    let lookback :=
                      Time_Add now (Duration_neg (Window policy)) in
                    let l' := pruneFront lookback l in
                    let numRestarts := N.of_nat (length l') in
                    let restartInfo' :=
                      {| totalRestarts := totalRestarts restartInfo;
                         restartedInstances :=
                           if bool_decide (numRestarts = 0%N) then None
                           else Some l' |} in
                    ((numRestarts <? MaxAttempts policy)%N,
                     set_history (<[tuple := restartInfo']> (history r)) r)
                end
          end
    end.

(** The key [recordRestartHistory] updates (lines 177 to 181). *)
Definition recordTuple (restartTask : Task) : instanceTuple :=
  {| instance := Instance restartTask;
     serviceID := ServiceID restartTask;
     nodeID := NodeID restartTask |}.

(** [now] is the value of [time.Now()]. *)
Definition recordRestartHistory (now : Time) (restartTask : Task)
    (service : Service) (r : RestartSupervisor) : RestartSupervisor :=
  match Spec_Restart service with
  | None => r
  | Some policy =>
      if bool_decide (MaxAttempts policy = 0%N) then r
      else
        let tuple := recordTuple restartTask in
        let restartInfo :=
          match history r !! tuple with
          | None => {| totalRestarts := 0; restartedInstances := None |}
          | Some info => info
          end in
        let total := uint64_incr (totalRestarts restartInfo) in
        let tuples :=
          match historyByService r !! ServiceID restartTask with
          | None => ∅
          | Some s => s
          end in
        let byService :=
          <[ServiceID restartTask := {[tuple]} ∪ tuples]>
            (historyByService r) in
        let instances :=
          if bool_decide (Window policy ≠ 0)
          then
            let l := match restartedInstances restartInfo with
                     | None => []
                     | Some l => l
                     end in
            Some (l ++ [{| timestamp := now |}])
          else restartedInstances restartInfo in
        {| delays := delays r;
           history := <[tuple := {| totalRestarts := total;
                                    restartedInstances := instances |}]>
                        (history r);
           historyByService := byService |}
  end.

Definition ClearServiceHistory (serviceID : string)
    (r : RestartSupervisor) : RestartSupervisor :=
  match historyByService r !! serviceID with
  | None => r
  | Some tuples =>
      {| delays := delays r;
         history := filter (fun kv => kv.1 ∉ tuples) (history r);
         historyByService := delete serviceID (historyByService r) |}
  end.

(** The counter and the window events the history holds for a key: zero
    and none when it has no entry for it. *)
Definition total_restarts (r : RestartSupervisor) (k : instanceTuple) : N :=
  match history r !! k with
  | Some info => totalRestarts info
  | None => 0%N
  end.

Definition window_events (r : RestartSupervisor) (k : instanceTuple)
    : list restartedInstance :=
  match history r !! k with
  | Some info => default [] (restartedInstances info)
  | None => []
  end.

(** The restart condition lets the task be restarted: the first test of
    [shouldRestart] does not refuse. *)
Definition permits (service : Service) (t : Task) : bool :=
  bool_decide (restartCondition service = RestartOnAny)
  || (bool_decide (restartCondition service = RestartOnFailure)
      && negb (bool_decide (Status_TerminalState t = TaskStateCompleted))).

End History.

(** ** The store *)

(** The operations of package store that restart.go calls inside a
    transaction.  A transaction is a value of [Tx]; an operation that can
    fail returns its error ([None] is nil) and the transaction it leaves. *)
Class Store (Tx Err : Type) := {
  GetTask : Tx -> string -> option Task;
  GetNode : Tx -> string -> option Node;
  CreateTask : Tx -> Task -> option Err * Tx;
  UpdateTask : Tx -> Task -> option Err * Tx;
}.

(** Modelled from the spec: [newTask], defined in another file of the
    package, builds a task "by template from the service spec": the task
    carries the instance ordinal it is given and has no node assignment.
    The first argument is the identifier it draws. *)
Class NewTask := {
  newTask : string -> Service -> N -> Task;
  newTask_Instance : forall newID service i,
    Instance (newTask newID service i) = i;
  newTask_NodeID : forall newID service i,
    NodeID (newTask newID service i) = "";
}.

(** ** Goroutines, contexts and channels *)

(** Where a delay loop stands: started by [go] and not yet run, blocked in
    the first [select], blocked in the second one, or ended (with or without
    the [StartNow] transaction). *)
Inductive Phase := Spawned | Delaying | WaitingStop | Ended (committed : bool).

(** The variables the goroutine of [DelayStart] closes over. *)
Record DelayLoop := {
  loop_ctx : Context;
  loop_service : Service;
  loop_newTaskID : string;
  loop_delay : Duration;
  loop_waitStop : bool;
  (** [watch]: the identifiers of the old task and of its node when the
      subscription was made, [None] for the nil channel *)
  loop_watch : option (string * string);
  loop_phase : Phase;
}.

(** The cancel functions that have been called, the channels that have been
    closed, the delay loops (each under its [doneCh]) and the next
    unused name for a cancel function or a channel. *)
Record Runtime := {
  fired : gset nat;
  closed : gset nat;
  loops : gmap nat DelayLoop;
  unused : nat;
}.

Definition NewRuntime : Runtime :=
  {| fired := ∅; closed := ∅; loops := ∅; unused := 0%nat |}.

(** [ctx.Done()] is closed once the cancel function of the context or of one
    of its ancestors has been called. *)
Fixpoint ctx_done (called : gset nat) (ctx : Context) : bool :=
  match ctx with
  | Background => false
  | WithCancel parent k => bool_decide (k ∈ called) || ctx_done called parent
  end.

(** The cancel functions that cancel a context. *)
Fixpoint ctx_cancels (ctx : Context) : gset nat :=
  match ctx with
  | Background => ∅
  | WithCancel parent k => {[k]} ∪ ctx_cancels parent
  end.

(** Calling cancel functions. *)
Definition fire (ks : gset nat) (rt : Runtime) : Runtime :=
  {| fired := fired rt ∪ ks; closed := closed rt;
     loops := loops rt; unused := unused rt |}.

Definition set_phase (p : Phase) (l : DelayLoop) : DelayLoop :=
  {| loop_ctx := loop_ctx l; loop_service := loop_service l;
     loop_newTaskID := loop_newTaskID l; loop_delay := loop_delay l;
     loop_waitStop := loop_waitStop l; loop_watch := loop_watch l;
     loop_phase := p |}.

(** A call of the supervisor either returns, or is suspended in a receive
    from the channel [ch] with the state it has reached. *)
Inductive Call (A : Type) :=
| Returns (a : A) (r : RestartSupervisor) (rt : Runtime)
| Parks (ch : nat) (r : RestartSupervisor) (rt : Runtime).
Arguments Returns {A} a r rt.
Arguments Parks {A} ch r rt.

Definition Call_map {A B} (f : A -> B) (c : Call A) : Call B :=
  match c with
  | Returns a r rt => Returns (f a) r rt
  | Parks ch r rt => Parks ch r rt
  end.

Definition Call_sup {A} (c : Call A) : RestartSupervisor :=
  match c with Returns _ r _ | Parks _ r _ => r end.
Definition Call_rt {A} (c : Call A) : Runtime :=
  match c with Returns _ _ rt | Parks _ _ rt => rt end.

Definition wrap_int64 (z : Z) : Z := (z + 2 ^ 63) mod 2 ^ 64 - 2 ^ 63.

Definition Second : Duration := 1000000000.
Definition defaultOldTaskTimeout : Duration := 60 * Second.

Section Supervisor.
Context {imports : Imports} {new_task : NewTask}.
Context {Tx Err : Type} {st : Store Tx Err}.

Definition StartNow (tx : Tx) (taskID : string) : option Err * Tx :=
  match GetTask tx taskID with
  | None => (None, tx)
  | Some t =>
      if TaskStateReady <? DesiredState t then (None, tx)
      else UpdateTask tx (set_DesiredState TaskStateRunning t)
  end.

(** The loop at the head of [DelayStart] and the registration that follows
    it, for the context and channel made at line 217 and 218 (both named
    [k]).  While a handle is registered under [newTaskID] the call cancels
    it and waits for its channel: it goes on only once another goroutine
    has removed the handle. *)
Definition register (k : nat) (service : Service) (oldTask : option Task)
    (newTaskID : string) (delay : Duration) (waitStop : bool)
    (r : RestartSupervisor) (rt : Runtime) : Call nat :=
  match delays r !! newTaskID with
  | Some oldDelay => Parks (doneCh oldDelay) r (fire {[cancel oldDelay]} rt)
  | None =>
      let watch :=
        match oldTask with
        | Some old => if waitStop then Some (ID old, NodeID old) else None
        | None => None
        end in
      let loop := {| loop_ctx := WithCancel Background k;
                     loop_service := service;
                     loop_newTaskID := newTaskID;
                     loop_delay := delay;
                     loop_waitStop := waitStop;
                     loop_watch := watch;
                     loop_phase := Spawned |} in
      Returns k
        (set_delays (<[newTaskID := {| cancel := k; doneCh := k |}]>
                       (delays r)) r)
        {| fired := fired rt; closed := closed rt;
           loops := <[k := loop]> (loops rt); unused := unused rt |}
  end.

(** The parameter [ctx] is replaced at line 217 by a child of the
    background context. *)
Definition DelayStart (ctx : Context) (service : Service)
    (oldTask : option Task) (newTaskID : string) (delay : Duration)
    (waitStop : bool) (r : RestartSupervisor) (rt : Runtime) : Call nat :=
  let k := unused rt in
  register k service oldTask newTaskID delay waitStop r
    {| fired := fired rt; closed := closed rt; loops := loops rt;
       unused := S k |}.

Definition Cancel (taskID : string) (r : RestartSupervisor) (rt : Runtime)
    : Call unit :=
  match delays r !! taskID with
  | None => Returns () r rt
  | Some delay =>
      let rt := fire {[cancel delay]} rt in
      if bool_decide (doneCh delay ∈ closed rt) then Returns () r rt
      else Parks (doneCh delay) r rt
  end.

(** [for _, delay := range cancelled { <-delay.doneCh }] *)
Fixpoint receiveAll (cancelled : list delayedStart)
    (r : RestartSupervisor) (rt : Runtime) : Call unit :=
  match cancelled with
  | [] => Returns () r rt
  | delay :: rest =>
      if bool_decide (doneCh delay ∈ closed rt) then receiveAll rest r rt
      else Parks (doneCh delay) r rt
  end.

Definition CancelAll (r : RestartSupervisor) (rt : Runtime) : Call unit :=
  let cancelled : list delayedStart := [] in
  let rt :=
    foldr (fun delay rt => fire {[cancel delay]} rt) rt
          (snd <$> map_to_list (delays r)) in
  receiveAll cancelled r rt.

(** Which [return] statement of [Restart] was reached. *)
Inductive RestartOutcome :=
| UpdateFailed (err : Err)
| Refused
| Unsupported
| CreateFailed (err : Err) (restartTask : Task)
| Restarted (restartTask : Task) (restartDelay : Duration) (waitStop : bool).

(** The error [Restart] returns. *)
Definition returned (o : RestartOutcome) : option Err :=
  match o with
  | UpdateFailed err | CreateFailed err _ => Some err
  | Refused | Unsupported | Restarted _ _ _ => None
  end.

(** [newID] is the identifier [newTask] draws, [now] the clock read by
    [shouldRestart] and [now'] the clock read by [recordRestartHistory]. *)
Definition Restart (ctx : Context) (tx : Tx) (service : Service) (t : Task)
    (newID : string) (now now' : Time)
    (r : RestartSupervisor) (rt : Runtime)
    : RestartOutcome * Tx * Call unit :=
  let t := set_DesiredState TaskStateShutdown t in
  match UpdateTask tx t with
  | (Some err, tx) => (UpdateFailed err, tx, Returns () r rt)
  | (None, tx) =>
      let '(restart, r) := shouldRestart now t service r in
      if negb restart then (Refused, tx, Returns () r rt)
      else
        let built :=
          if isReplicatedService service
          then Some (newTask newID service (Instance t))
          else if isGlobalService service
          then Some (set_NodeID (NodeID t) (newTask newID service 0%N))
          else None in
        match built with
        | None => (Unsupported, tx, Returns () r rt)
        | Some restartTask =>
            let n := GetNode tx (NodeID t) in
            let restartTask := set_DesiredState TaskStateReady restartTask in
            let restartDelay :=
              match Spec_Restart service with
              | Some policy =>
                  if bool_decide (Delay policy ≠ 0)
                     && match n with
                        | None => true
                        | Some n =>
                            bool_decide (Node_Spec_Availability n
                                         ≠ NodeAvailabilityDrain)
                        end
                  then Delay policy else 0
              | None => 0
              end in
            let waitStop :=
              if match n with
                 | Some n => bool_decide (Node_Status_State n = NodeStatus_DOWN)
                 | None => false
                 end
                 || (TaskStateRunning <? Status_State t)
              then false else true in
            match CreateTask tx restartTask with
            | (Some err, tx) =>
                (CreateFailed err restartTask, tx, Returns () r rt)
            | (None, tx) =>
                let r := recordRestartHistory now' restartTask service r in
                (Restarted restartTask restartDelay waitStop, tx,
                 Call_map (fun _ => ())
                   (DelayStart ctx service (Some t) (ID restartTask)
                      restartDelay waitStop r rt))
            end
        end
  end.

(** *** The goroutine of [DelayStart] *)

(** What lets a delay loop go on: the scheduler runs it for the first
    time, or a case of the [select] it is blocked in is ready. *)
Inductive Wake := Go | DelayElapsed | WatchEvent | OldTaskTimeout | CtxDone.

(** [oldTaskTimeout], armed only when [watch] is not nil. *)
Definition oldTaskTimeout (l : DelayLoop) : option Duration :=
  match loop_watch l with
  | None => None
  | Some _ =>
      match Spec_Container (loop_service l) with
      | Some container =>
          Some (wrap_int64 (StopGracePeriod container + 5 * Second))
      | None => Some defaultOldTaskTimeout
      end
  end.

(** The deferred function: the handle leaves the registry, then the
    channel is closed. *)
Definition teardown (ch : nat) (l : DelayLoop) (committed : bool)
    (w : Tx * RestartSupervisor * Runtime) : Tx * RestartSupervisor * Runtime :=
  let '(tx, r, rt) := w in
  (tx,
   set_delays (delete (loop_newTaskID l) (delays r)) r,
   {| fired := fired rt; closed := closed rt ∪ {[ch]};
      loops := <[ch := set_phase (Ended committed) l]> (loops rt);
      unused := unused rt |}).

(** The transaction of lines 300 to 309; the error of [StartNow] is
    logged and dropped. *)
Definition commit (ch : nat) (l : DelayLoop)
    (w : Tx * RestartSupervisor * Runtime) : Tx * RestartSupervisor * Runtime :=
  let '(tx, r, rt) := w in
  teardown ch l true ((StartNow tx (loop_newTaskID l)).2, r, rt).

Definition park (ch : nat) (l : DelayLoop) (p : Phase)
    (w : Tx * RestartSupervisor * Runtime) : Tx * RestartSupervisor * Runtime :=
  let '(tx, r, rt) := w in
  (tx, r,
   {| fired := fired rt; closed := closed rt;
      loops := <[ch := set_phase p l]> (loops rt); unused := unused rt |}).

Definition afterDelay (ch : nat) (l : DelayLoop)
    (w : Tx * RestartSupervisor * Runtime) : Tx * RestartSupervisor * Runtime :=
  if loop_waitStop l then park ch l WaitingStop w else commit ch l w.

(** One scheduling of the delay loop whose channel is [ch]: from where it
    stands to its next [select] or to its end.  [None] when the loop
    cannot go on that way. *)
Definition loop_step (ch : nat) (ev : Wake)
    (w : Tx * RestartSupervisor * Runtime)
    : option (Tx * RestartSupervisor * Runtime) :=
  match loops w.2 !! ch with
  | None => None
  | Some l =>
      let cancelled := ctx_done (fired w.2) (loop_ctx l) in
      match loop_phase l, ev with
      | Spawned, Go =>
          if bool_decide (loop_delay l ≠ 0) then Some (park ch l Delaying w)
          else Some (afterDelay ch l w)
      | Delaying, DelayElapsed => Some (afterDelay ch l w)
      | Delaying, CtxDone =>
          if cancelled then Some (teardown ch l false w) else None
      | WaitingStop, WatchEvent =>
          match loop_watch l with
        | Some _ => Some (commit ch l w)
        | None => None
        end
      | WaitingStop, OldTaskTimeout =>
          match oldTaskTimeout l with
        | Some _ => Some (commit ch l w)
        | None => None
        end
      | WaitingStop, CtxDone =>
          if cancelled then Some (teardown ch l false w) else None
      | _, _ => None
      end
  end.

(** *** Successive calls of [Restart] *)

(** The arguments of one call, with the identifier and the clock readings
    it draws. *)
Record RestartCall := {
  call_ctx : Context;
  call_tx : Tx;
  call_task : Task;
  call_newID : string;
  call_now : Time;
  call_now' : Time;
}.

(** Calls of [Restart] for one service, one after the other, each of which
    creates its replacement task and returns: the replacement tasks and the
    state the last call leaves.  [None] when a call does not get that far. *)
Fixpoint RestartAll (service : Service) (calls : list RestartCall)
    (r : RestartSupervisor) (rt : Runtime)
    : option (list Task * RestartSupervisor * Runtime) :=
  match calls with
  | [] => Some ([], r, rt)
  | c :: rest =>
      match Restart (call_ctx c) (call_tx c) service (call_task c)
              (call_newID c) (call_now c) (call_now' c) r rt with
      | (Restarted restartTask _ _, _, Returns _ r rt) =>
          match RestartAll service rest r rt with
          | Some (tasks, r, rt) => Some (restartTask :: tasks, r, rt)
          | None => None
          end
      | _ => None
      end
  end.

End Supervisor.

(** ** A memory store and concrete declarations for the examples *)

Record MemTx := {
  tasks : gmap string Task;
  nodes : gmap string Node;
}.

Inductive MemErr := ErrExist | ErrNotExist.

(** Modelled from the spec: the store offers "standard CRUD"; here a task is
    created under a free identifier only and updated under a used one
    only. *)
Definition mem_store : Store MemTx MemErr :=
  {| GetTask tx id := tasks tx !! id;
     GetNode tx id := nodes tx !! id;
     CreateTask tx t :=
       match tasks tx !! ID t with
       | Some _ => (Some ErrExist, tx)
       | None => (None, {| tasks := <[ID t := t]> (tasks tx);
                           nodes := nodes tx |})
       end;
     UpdateTask tx t :=
       match tasks tx !! ID t with
       | Some _ => (None, {| tasks := <[ID t := t]> (tasks tx);
                             nodes := nodes tx |})
       | None => (Some ErrNotExist, tx)
       end |}.

(** Task states numbered in the order of the spec (NEW, ALLOCATED, ASSIGNED,
    READY, RUNNING, SHUTDOWN, COMPLETED, FAILED), node state DOWN numbered 2,
    and the restart condition read from the policy, ANY without one. *)
Definition demo_imports : Imports :=
  {| TaskStateReady := 3;
     TaskStateRunning := 4;
     TaskStateShutdown := 5;
     TaskStateCompleted := 6;
     NodeStatus_DOWN := 2;
     restartCondition service :=
       match Spec_Restart service with
       | Some policy => Condition policy
       | None => RestartOnAny
       end |}.

Definition demo_newTask (newID : string) (service : Service) (i : N) : Task :=
  {| ID := newID; ServiceID := Service_ID service; Instance := i;
     NodeID := ""; DesiredState := 4; Status_State := 0;
     Status_TerminalState := 0 |}.

Definition demo_new_task : NewTask :=
  {| newTask := demo_newTask;
     newTask_Instance := fun _ _ _ => eq_refl;
     newTask_NodeID := fun _ _ _ => eq_refl |}.

Definition demo_policy (c : RestartCondition) (delay : Duration)
    (max : N) (window : Duration) : RestartPolicy :=
  {| Condition := c; Delay := delay; MaxAttempts := max; Window := window |}.

Definition demo_service (mode : ServiceMode) (p : option RestartPolicy)
    : Service :=
  {| Service_ID := "web"; Spec_Mode := mode; Spec_Restart := p;
     Spec_Container := None |}.

(** A task of service "web" on node "n1" that has failed (state 7). *)
Definition demo_task (id : string) (i : N) : Task :=
  {| ID := id; ServiceID := "web"; Instance := i; NodeID := "n1";
     DesiredState := 4; Status_State := 7; Status_TerminalState := 7 |}.

Definition demo_node (state : NodeState) (a : NodeAvailability) : Node :=
  {| Node_ID := "n1"; Node_Status_State := state;
     Node_Spec_Availability := a |}.

Definition demo_tx_on (ts : list Task) (ns : list Node) : MemTx :=
  {| tasks := list_to_map ((fun t => (ID t, t)) <$> ts);
     nodes := list_to_map ((fun n => (Node_ID n, n)) <$> ns) |}.

Definition demo_tx (ts : list Task) : MemTx := demo_tx_on ts [].

(** The call of [Restart] for the task [id] of instance 1, alone in its
    transaction, that draws [newID] and reads [now] on the clock twice. *)
Definition demo_call (id newID : string) (now : Time) : RestartCall :=
  {| call_ctx := Background; call_tx := demo_tx [demo_task id 1];
     call_task := demo_task id 1; call_newID := newID;
     call_now := now; call_now' := now |}.

(** The instance tuple of instance 1 of the replicated service "web". *)
Definition demo_key : instanceTuple :=
  {| instance := 1; serviceID := "web"; nodeID := "" |}.

Definition demo_history (k : instanceTuple) (total : N)
    (events : option (list Time)) : RestartSupervisor :=
  {| delays := ∅;
     history := {[ k := {| totalRestarts := total;
                           restartedInstances :=
                             fmap (M := list) Build_restartedInstance <$> events |} ]};
     historyByService := {[ serviceID k := {[ k ]} ]} |}.

(** The loop of a delay of 5 for the replacement "t2" of task "t1", not yet
    run, and the state in which it is registered under channel and cancel
    function 0 and blocked in its first [select]. *)
Definition demo_loop : DelayLoop :=
  {| loop_ctx := WithCancel Background 0;
     loop_service := demo_service ModeReplicated None;
     loop_newTaskID := "t2";
     loop_delay := 5;
     loop_waitStop := true;
     loop_watch := Some ("t1", "n1");
     loop_phase := Spawned |}.

Definition demo_blocked_sup : RestartSupervisor :=
  {| delays := {[ "t2" := {| cancel := 0%nat; doneCh := 0%nat |} ]};
     history := ∅; historyByService := ∅ |}.

Definition demo_blocked_rt : Runtime :=
  {| fired := ∅; closed := ∅;
     loops := {[ 0%nat := set_phase Delaying demo_loop ]};
     unused := 1 |}.

(** ** Invariants and runs *)

(** The index by service agrees with the history: every key of the history
    is indexed under its service, and the index of a service holds keys of
    that service only. *)
Definition ledger_ok (r : RestartSupervisor) : Prop :=
  (forall k, is_Some (history r !! k) ->
     exists s, historyByService r !! serviceID k = Some s /\ k ∈ s)
  /\ (forall sid s k,
        historyByService r !! sid = Some s -> k ∈ s -> serviceID k = sid).

(** Restart events in the order of their timestamps. *)
Fixpoint chronological (l : list restartedInstance) : Prop :=
  match l with
  | [] => True
  | e :: rest =>
      Forall (fun e' => timestamp e <= timestamp e') rest /\ chronological rest
  end.

(** A delay loop that has not ended. *)
Definition loop_live (l : DelayLoop) : Prop :=
  forall committed, loop_phase l <> Ended committed.

(** The registry agrees with the goroutines: a registered handle is the one
    of a delay loop that has not ended, for the task it is registered
    under, and its channel is open; a delay loop that has not ended is
    registered under its task; the channel of a loop that has ended is
    closed; the names in use are below the next unused one. *)
Definition runtime_ok (r : RestartSupervisor) (rt : Runtime) : Prop :=
  (forall id d,
     delays r !! id = Some d ->
     exists l,
       loops rt !! doneCh d = Some l
       /\ loop_newTaskID l = id
       /\ loop_ctx l = WithCancel Background (cancel d)
       /\ loop_live l
       /\ doneCh d ∉ closed rt)
  /\ (forall ch l,
        loops rt !! ch = Some l ->
        (ch < unused rt)%nat
        /\ (loop_live l ->
            exists d, delays r !! loop_newTaskID l = Some d /\ doneCh d = ch)
        /\ (~ loop_live l -> ch ∈ closed rt))
  /\ (forall ch, ch ∈ closed rt -> (ch < unused rt)%nat).

Section Runs.
Context {imports : Imports} {new_task : NewTask}.
Context {Tx Err : Type} {st : Store Tx Err}.

(** Successive schedulings of the delay loop whose channel is [ch]. *)
Fixpoint loop_run (ch : nat) (evs : list Wake)
    (w : Tx * RestartSupervisor * Runtime)
    : option (Tx * RestartSupervisor * Runtime) :=
  match evs with
  | [] => Some w
  | ev :: rest =>
      match loop_step ch ev w with
      | Some w' => loop_run ch rest w'
      | None => None
      end
  end.

End Runs.

(** ** Properties of the restart history *)

Section HistoryFacts.
Context {imports : Imports}.

Lemma pruneFront_split lookback l :
  exists removed,
    l = removed ++ pruneFront lookback l
    /\ Forall (fun e => timestamp e <= lookback) removed.
Proof.
  induction l as [|e l IH]; simpl.
  - exists []. split; [reflexivity | constructor].
  - unfold Time_After. destruct (Z.ltb_spec lookback (timestamp e)) as [Hlt|Hge].
    + exists []. split; [reflexivity | constructor].
    + destruct IH as (removed & Heq & Hall).
      exists (e :: removed). split.
      * simpl. f_equal. exact Heq.
      * constructor; assumption.
Qed.

Lemma pruneFront_head lookback l e :
  head (pruneFront lookback l) = Some e -> lookback < timestamp e.
Proof.
  induction l as [|e' l IH]; simpl; [discriminate|].
  unfold Time_After. destruct (Z.ltb_spec lookback (timestamp e')) as [Hlt|Hge].
  - simpl. intros [= <-]. exact Hlt.
  - exact IH.
Qed.

Lemma pruneFront_fixed lookback l :
  (forall e, head l = Some e -> lookback < timestamp e) ->
  pruneFront lookback l = l.
Proof.
  destruct l as [|e l]; simpl; [reflexivity|].
  intros H. unfold Time_After.
  destruct (Z.ltb_spec lookback (timestamp e)) as [Hlt|Hge]; [reflexivity|].
  specialize (H e eq_refl). lia.
Qed.

Lemma pruneFront_idem lookback l :
  pruneFront lookback (pruneFront lookback l) = pruneFront lookback l.
Proof. apply pruneFront_fixed. intros e. apply pruneFront_head. Qed.

Lemma pruneFront_length lookback l :
  (length (pruneFront lookback l) <= length l)%nat.
Proof.
  destruct (pruneFront_split lookback l) as (removed & Heq & _).
  rewrite Heq at 2. rewrite length_app. lia.
Qed.

Lemma Duration_neg_pos d : 0 < d -> Duration_neg d = - d.
Proof.
  intros Hd. unfold Duration_neg, min_int64.
  destruct (Z.eqb_spec d (- 2 ^ 63)) as [->|_]; [lia | reflexivity].
Qed.

(** The first test of [shouldRestart], through [permits]. *)
Lemma gate_permits service t :
  bool_decide (restartCondition service ≠ RestartOnAny)
  && (bool_decide (restartCondition service ≠ RestartOnFailure)
      || bool_decide (Status_TerminalState t = TaskStateCompleted))
  = negb (permits service t).
Proof.
  unfold permits.
  destruct (restartCondition service);
    destruct (bool_decide (Status_TerminalState t = TaskStateCompleted));
    reflexivity.
Qed.

Lemma shouldRestart_refused now t service r :
  permits service t = false -> shouldRestart now t service r = (false, r).
Proof.
  intros H. unfold shouldRestart. cbv zeta. rewrite gate_permits, H.
  reflexivity.
Qed.

(** What [shouldRestart] does once the condition permits the restart. *)
Lemma shouldRestart_permitted now t service r :
  permits service t = true ->
  shouldRestart now t service r =
    match Spec_Restart service with
    | None => (true, r)
    | Some policy =>
        if bool_decide (MaxAttempts policy = 0%N) then (true, r)
        else
          match history r !! taskTuple t service with
          | None => (true, r)
          | Some info =>
              if bool_decide (Window policy = 0)
              then ((totalRestarts info <? MaxAttempts policy)%N, r)
              else
                match restartedInstances info with
                | None => (true, r)
                | Some l =>
                    let kept :=
                      pruneFront (Time_Add now (Duration_neg (Window policy))) l in
                    ((N.of_nat (length kept) <? MaxAttempts policy)%N,
                     set_history
                       (<[taskTuple t service :=
                            {| totalRestarts := totalRestarts info;
                               restartedInstances :=
                                 if bool_decide (N.of_nat (length kept) = 0%N)
                                 then None else Some kept |}]> (history r)) r)
                end
          end
    end.
Proof.
  intros H. unfold shouldRestart. cbv zeta. rewrite gate_permits, H.
  reflexivity.
Qed.

(** [shouldRestart] leaves the registry and the index by service alone. *)
Lemma shouldRestart_delays now t service r :
  delays (shouldRestart now t service r).2 = delays r
  /\ historyByService (shouldRestart now t service r).2 = historyByService r.
Proof.
  destruct (permits service t) eqn:Hp.
  - rewrite shouldRestart_permitted by assumption.
    repeat case_match; simpl; auto.
  - rewrite shouldRestart_refused by assumption. auto.
Qed.

(** [shouldRestart] changes the entry of no key but for the window events
    of the key it looks up, which it prunes. *)
Lemma shouldRestart_history now t service r k :
  total_restarts (shouldRestart now t service r).2 k = total_restarts r k
  /\ (window_events (shouldRestart now t service r).2 k = window_events r k
      \/ exists policy,
           Spec_Restart service = Some policy
           /\ k = taskTuple t service
           /\ window_events (shouldRestart now t service r).2 k =
              pruneFront (Time_Add now (Duration_neg (Window policy)))
                (window_events r k)).
Proof.
  destruct (permits service t) eqn:Hp.
  2:{ rewrite shouldRestart_refused by assumption. auto. }
  rewrite shouldRestart_permitted by assumption.
  destruct (Spec_Restart service) as [policy|] eqn:Hpol; [|auto].
  case_bool_decide; [auto|].
  destruct (history r !! taskTuple t service) as [info|] eqn:Hinfo; [|auto].
  case_bool_decide; [auto|].
  destruct (restartedInstances info) as [l|] eqn:Hl; [|auto].
  cbv zeta. simpl. unfold total_restarts, window_events. simpl.
  destruct (decide (k = taskTuple t service)) as [->|Hne].
  - rewrite lookup_insert_eq, Hinfo. simpl. split; [reflexivity|].
    right. exists policy. split; [reflexivity|]. split; [reflexivity|].
    rewrite Hl. simpl. case_bool_decide as Hz; [|reflexivity].
    simpl. destruct (pruneFront _ l); [reflexivity | simpl in Hz; lia].
  - rewrite lookup_insert_ne by congruence. auto.
Qed.

End HistoryFacts.

Section HistoryClaims.
Context {imports : Imports}.

(** C1, amended: for a task whose restart condition permits the restart
    (ANY, or ON_FAILURE with a terminal state other than COMPLETED) and a
    service whose policy has max_attempts > 0, when the history has an entry
    for the task's instance tuple: with window = 0, [shouldRestart] changes
    nothing and returns true exactly when total_restarts < max_attempts;
    with window > 0 and a list of window events in the entry, it removes
    from the front of the list the events at or before now - window, up to
    the first event strictly after that threshold, keeps the rest, and
    returns true exactly when fewer than max_attempts events are kept. *)
Theorem shouldRestart_window_bound now t service policy r info :
  Spec_Restart service = Some policy ->
  permits service t = true ->
  (0 < MaxAttempts policy)%N ->
  history r !! taskTuple t service = Some info ->
  (Window policy = 0 ->
     (shouldRestart now t service r).2 = r
     /\ ((shouldRestart now t service r).1 = true
         <-> (totalRestarts info < MaxAttempts policy)%N))
  /\ (0 < Window policy ->
      forall l, restartedInstances info = Some l ->
        let threshold := now - Window policy in
        let kept := pruneFront threshold l in
        (exists removed,
            l = removed ++ kept
            /\ Forall (fun e => timestamp e <= threshold) removed)
        /\ (forall e, head kept = Some e -> threshold < timestamp e)
        /\ (forall e rest, l = e :: rest ->
              (timestamp e <= threshold -> kept = pruneFront threshold rest)
              /\ (threshold < timestamp e -> kept = l))
        /\ window_events (shouldRestart now t service r).2 (taskTuple t service)
           = kept
        /\ total_restarts (shouldRestart now t service r).2 (taskTuple t service)
           = totalRestarts info
        /\ ((shouldRestart now t service r).1 = true
            <-> (N.of_nat (length kept) < MaxAttempts policy)%N)).
Proof.
  intros Hpol Hperm Hmax Hinfo.
  rewrite (shouldRestart_permitted now t service r Hperm), Hpol, Hinfo.
  rewrite bool_decide_eq_false_2 by lia.
  split.
  - intros Hw. rewrite bool_decide_eq_true_2 by assumption. simpl.
    split; [reflexivity | apply N.ltb_lt].
  - intros Hw l Hl threshold kept.
    rewrite bool_decide_eq_false_2 by lia. rewrite Hl. cbv zeta.
    unfold Time_Add. rewrite (Duration_neg_pos _ Hw).
    change (now + - Window policy) with threshold. fold kept. simpl.
    split; [apply pruneFront_split|].
    split; [apply pruneFront_head|].
    split.
    { intros e rest ->. subst kept. simpl. unfold Time_After.
      destruct (Z.ltb_spec threshold (timestamp e)); split; intros; auto; lia. }
    unfold window_events, total_restarts. simpl. rewrite lookup_insert_eq.
    simpl. split; [|split; [reflexivity | apply N.ltb_lt]].
    case_bool_decide as Hz; [|reflexivity].
    simpl. destruct kept; [reflexivity | simpl in Hz; lia].
Qed.

(** C2: [shouldRestart] refuses when the restart condition is NONE, and
    when it is ON_FAILURE and the task's terminal state is COMPLETED; when
    the condition permits the restart, it allows it for a service without
    restart policy, for a policy with max_attempts = 0, and when the
    history has no entry for the task's instance tuple.  In all these cases
    the supervisor is left as it was. *)
Theorem shouldRestart_policy_gate now t service r :
  (restartCondition service = RestartOnNone ->
     shouldRestart now t service r = (false, r))
  /\ (restartCondition service = RestartOnFailure ->
      Status_TerminalState t = TaskStateCompleted ->
      shouldRestart now t service r = (false, r))
  /\ (permits service t = true ->
      Spec_Restart service = None ->
      shouldRestart now t service r = (true, r))
  /\ (permits service t = true ->
      forall policy,
        Spec_Restart service = Some policy -> MaxAttempts policy = 0%N ->
        shouldRestart now t service r = (true, r))
  /\ (permits service t = true ->
      history r !! taskTuple t service = None ->
      shouldRestart now t service r = (true, r)).
Proof.
  repeat split.
  - intros Hc. apply shouldRestart_refused. unfold permits. rewrite Hc.
    reflexivity.
  - intros Hc Ht. apply shouldRestart_refused. unfold permits.
    rewrite Hc, Ht.
    rewrite (bool_decide_eq_true_2 (TaskStateCompleted = _)) by reflexivity.
    reflexivity.
  - intros Hp Hnone. rewrite shouldRestart_permitted, Hnone by assumption.
    reflexivity.
  - intros Hp policy Hpol Hmax.
    rewrite shouldRestart_permitted, Hpol by assumption.
    rewrite bool_decide_eq_true_2 by assumption. reflexivity.
  - intros Hp Hnone. rewrite shouldRestart_permitted, Hnone by assumption.
    destruct (Spec_Restart service); [|reflexivity].
    case_bool_decide; reflexivity.
Qed.

(** C9: two calls of [shouldRestart] in a row for the same task and service,
    at the same clock, return the same boolean; neither changes the counter
    total_restarts of any key, and the second changes nothing at all. *)
Theorem shouldRestart_twice now t service r :
  let first := shouldRestart now t service r in
  let second := shouldRestart now t service first.2 in
  second.1 = first.1
  /\ second.2 = first.2
  /\ forall k,
       total_restarts first.2 k = total_restarts r k
       /\ total_restarts second.2 k = total_restarts r k.
Proof.
  cbv zeta.
  assert (Htot : forall k,
    total_restarts (shouldRestart now t service r).2 k = total_restarts r k
    /\ total_restarts
         (shouldRestart now t service (shouldRestart now t service r).2).2 k
       = total_restarts r k).
  { intros k. split; [apply shouldRestart_history|].
    rewrite (proj1 (shouldRestart_history _ _ _ _ _)).
    apply shouldRestart_history. }
  enough (Hfix :
    shouldRestart now t service (shouldRestart now t service r).2
    = shouldRestart now t service r).
  { split; [rewrite Hfix; reflexivity|].
    split; [rewrite Hfix; reflexivity | exact Htot]. }
  destruct (permits service t) eqn:Hp.
  2:{ rewrite !shouldRestart_refused by assumption. reflexivity. }
  rewrite (shouldRestart_permitted now t service r Hp).
  destruct (Spec_Restart service) as [policy|] eqn:Hpol.
  2:{ simpl. rewrite shouldRestart_permitted, Hpol by assumption. reflexivity. }
  case_bool_decide as Hmax.
  { simpl. rewrite shouldRestart_permitted, Hpol by assumption.
    rewrite bool_decide_eq_true_2 by assumption. reflexivity. }
  destruct (history r !! taskTuple t service) as [info|] eqn:Hinfo.
  2:{ simpl. rewrite shouldRestart_permitted, Hpol by assumption.
      rewrite bool_decide_eq_false_2, Hinfo by assumption. reflexivity. }
  case_bool_decide as Hw.
  { simpl. rewrite shouldRestart_permitted, Hpol by assumption.
    rewrite bool_decide_eq_false_2, Hinfo by assumption.
    rewrite bool_decide_eq_true_2 by assumption. reflexivity. }
  destruct (restartedInstances info) as [l|] eqn:Hl.
  2:{ simpl. rewrite shouldRestart_permitted, Hpol by assumption.
      rewrite bool_decide_eq_false_2, Hinfo by assumption.
      rewrite bool_decide_eq_false_2, Hl by assumption. reflexivity. }
  cbv zeta. simpl.
  rewrite shouldRestart_permitted, Hpol by assumption.
  rewrite bool_decide_eq_false_2 by assumption.
  simpl. rewrite lookup_insert_eq.
  rewrite bool_decide_eq_false_2 by assumption. simpl.
  set (kept := pruneFront _ l).
  case_bool_decide as Hz.
  - f_equal. symmetry. apply N.ltb_lt. lia.
  - cbv zeta.
    replace (pruneFront _ kept) with kept
      by (symmetry; apply pruneFront_idem).
    rewrite bool_decide_eq_false_2 by assumption.
    unfold set_history. simpl. rewrite insert_insert_eq. reflexivity.
Qed.

End HistoryClaims.

(** ** Properties of [Restart] and [StartNow] *)

Section RestartClaims.
Context {imports : Imports} {new_task : NewTask}.
Context {Tx Err : Type} {st : Store Tx Err}.

(** C8: [StartNow] reads the task through the transaction; when there is no
    such task, or its desired state is greater than READY, it returns no
    error and leaves the transaction as it was; otherwise it returns what
    [UpdateTask] returns, error and transaction, for the task with its
    desired state set to RUNNING. *)
Theorem StartNow_spec (tx : Tx) (taskID : string) :
  (GetTask tx taskID = None -> StartNow tx taskID = (None, tx))
  /\ (forall t, GetTask tx taskID = Some t ->
        TaskStateReady < DesiredState t ->
        StartNow tx taskID = (None, tx))
  /\ (forall t, GetTask tx taskID = Some t ->
        DesiredState t <= TaskStateReady ->
        StartNow tx taskID
        = UpdateTask tx (set_DesiredState TaskStateRunning t)
        /\ DesiredState (set_DesiredState TaskStateRunning t)
           = TaskStateRunning).
Proof.
  unfold StartNow. split; [|split].
  - intros ->. reflexivity.
  - intros t -> Hgt.
    destruct (Z.ltb_spec TaskStateReady (DesiredState t)); [reflexivity | lia].
  - intros t -> Hle.
    destruct (Z.ltb_spec TaskStateReady (DesiredState t)); [lia | auto].
Qed.

(** C4: [Restart] first asks the transaction to update the task with its
    desired state set to SHUTDOWN.  When that update fails, its error is
    what [Restart] returns, and nothing else is done.  When it succeeds and
    [shouldRestart] then returns false, [Restart] returns no error and does
    nothing more: the transaction is as the update left it, the supervisor
    as [shouldRestart] left it (same registry, same index, same counters)
    and no goroutine is started. *)
Theorem Restart_shutdown_then_gate ctx (tx : Tx) service t newID now now' r rt :
  let t' := set_DesiredState TaskStateShutdown t in
  let out := Restart ctx tx service t newID now now' r rt in
  DesiredState t' = TaskStateShutdown
  /\ (forall err tx1,
        UpdateTask tx t' = (Some err, tx1) ->
        out = (UpdateFailed err, tx1, Returns () r rt)
        /\ returned out.1.1 = Some err)
  /\ (forall tx1 r1,
        UpdateTask tx t' = (None, tx1) ->
        shouldRestart now t' service r = (false, r1) ->
        out = (Refused, tx1, Returns () r1 rt)
        /\ returned out.1.1 = None
        /\ delays r1 = delays r
        /\ historyByService r1 = historyByService r
        /\ forall k, total_restarts r1 k = total_restarts r k).
Proof.
  cbv zeta. split; [reflexivity|]. split.
  - intros err tx1 Hup. unfold Restart. rewrite Hup. simpl. auto.
  - intros tx1 r1 Hup Hno. unfold Restart. rewrite Hup, Hno. simpl.
    split; [reflexivity|]. split; [reflexivity|].
    pose proof (shouldRestart_delays now
                  (set_DesiredState TaskStateShutdown t) service r) as [Hd Hs].
    rewrite Hno in Hd, Hs. simpl in Hd, Hs.
    split; [exact Hd|]. split; [exact Hs|].
    intros k.
    pose proof (shouldRestart_history now
                  (set_DesiredState TaskStateShutdown t) service r k) as [Ht _].
    rewrite Hno in Ht. exact Ht.
Qed.

(** C5: once the update has succeeded and [shouldRestart] has returned
    true, [Restart] hands [CreateTask] a replacement whose desired state is
    READY and which, for a REPLICATED service, carries the instance ordinal
    of the old task and no node, and for a GLOBAL service, instance 0 and
    the node of the old task; for a service of another mode it creates
    nothing and returns no error. *)
Theorem Restart_replacement ctx (tx : Tx) service t newID now now' r rt tx1 r1 :
  let t' := set_DesiredState TaskStateShutdown t in
  let out := Restart ctx tx service t newID now now' r rt in
  UpdateTask tx t' = (None, tx1) ->
  shouldRestart now t' service r = (true, r1) ->
  (Spec_Mode service = ModeReplicated ->
     exists restartTask,
       Instance restartTask = Instance t
       /\ NodeID restartTask = ""
       /\ DesiredState restartTask = TaskStateReady
       /\ out.1.2 = (CreateTask tx1 restartTask).2
       /\ match (CreateTask tx1 restartTask).1 with
          | None => exists d w, out.1.1 = Restarted restartTask d w
          | Some err => out.1.1 = CreateFailed err restartTask
          end)
  /\ (Spec_Mode service = ModeGlobal ->
     exists restartTask,
       Instance restartTask = 0%N
       /\ NodeID restartTask = NodeID t
       /\ DesiredState restartTask = TaskStateReady
       /\ out.1.2 = (CreateTask tx1 restartTask).2
       /\ match (CreateTask tx1 restartTask).1 with
          | None => exists d w, out.1.1 = Restarted restartTask d w
          | Some err => out.1.1 = CreateFailed err restartTask
          end)
  /\ (Spec_Mode service = ModeUnsupported ->
      out = (Unsupported, tx1, Returns () r1 rt)
      /\ returned out.1.1 = None).
Proof.
  cbv zeta. intros Hup Hyes. unfold Restart. rewrite Hup, Hyes. simpl.
  unfold isReplicatedService, isGlobalService.
  split; [|split]; intros Hmode; rewrite Hmode; simpl.
  - exists (set_DesiredState TaskStateReady (newTask newID service (Instance t))).
    split; [apply newTask_Instance|].
    split; [apply newTask_NodeID|].
    split; [reflexivity|].
    destruct (CreateTask tx1 _) as [[err|] tx2]; simpl; eauto.
  - exists (set_DesiredState TaskStateReady
              (set_NodeID (NodeID t) (newTask newID service 0%N))).
    split; [apply newTask_Instance|].
    split; [reflexivity|].
    split; [reflexivity|].
    destruct (CreateTask tx1 _) as [[err|] tx2]; simpl; eauto.
  - auto.
Qed.

(** C6: when [Restart] starts the delay, the delay it passes is the delay
    of the policy when the service has a policy whose delay is not zero and
    the node of the old task, if the store has it, is not drained, and zero
    otherwise; [waitStop] is false exactly when the store has the node and
    it is DOWN, or the observed state of the old task is greater than
    RUNNING.  The delay loop that [DelayStart] registers holds these two
    values. *)
Theorem Restart_delay_and_wait ctx (tx : Tx) service t newID now now' r rt
    restartTask restartDelay waitStop tx2 c :
  let n := GetNode (UpdateTask tx (set_DesiredState TaskStateShutdown t)).2
             (NodeID t) in
  let delayed d :=
    exists policy,
      Spec_Restart service = Some policy /\ Delay policy <> 0
      /\ (forall node, n = Some node ->
            Node_Spec_Availability node <> NodeAvailabilityDrain)
      /\ d = Delay policy in
  Restart ctx tx service t newID now now' r rt
  = (Restarted restartTask restartDelay waitStop, tx2, c) ->
  (delayed restartDelay \/ (~ (exists d, delayed d) /\ restartDelay = 0))
  /\ (waitStop = false
      <-> (exists node, n = Some node /\ Node_Status_State node = NodeStatus_DOWN)
          \/ TaskStateRunning < Status_State t)
  /\ (waitStop = true
      <-> ~ ((exists node, n = Some node /\ Node_Status_State node = NodeStatus_DOWN)
             \/ TaskStateRunning < Status_State t))
  /\ (forall r' rt', c = Returns () r' rt' ->
        exists d l,
          delays r' !! ID restartTask = Some d
          /\ loops rt' !! doneCh d = Some l
          /\ loop_delay l = restartDelay
          /\ loop_waitStop l = waitStop).
Proof.
  cbv zeta. unfold Restart.
  destruct (UpdateTask tx _) as [[err|] tx1]; [discriminate|]. simpl.
  destruct (shouldRestart now _ service r) as [[|] r1]; simpl; [|discriminate].
  match goal with
  | |- context [match ?b with Some _ => _ | None => (Unsupported, _, _) end] =>
      destruct b as [built|]; [|discriminate]
  end.
  destruct (CreateTask tx1 _) as [[err|] tx3]; [discriminate|].
  intros [= <- <- <- <- <-].
  set (n := GetNode tx1 (NodeID t)).
  split; [|split; [|split]].
  - destruct (Spec_Restart service) as [policy|].
    2:{ right. split; [|reflexivity]. intros (d & p & [=] & _). }
    case_bool_decide as Hd; simpl.
    2:{ right. split; [|reflexivity].
        intros (d & p & [= <-] & Hnz & _). exact (Hnz Hd). }
    destruct n as [node|].
    + case_bool_decide as Ha.
      * left. exists policy. split; [reflexivity|]. split; [assumption|].
        split; [|reflexivity]. intros ? [= <-]. exact Ha.
      * right. split; [|reflexivity].
        intros (d & p & [= <-] & _ & Hav & _). exact (Hav node eq_refl Ha).
    + left. exists policy. split; [reflexivity|]. split; [assumption|].
      split; [|reflexivity]. intros ? [=].
  - destruct n as [node|]; simpl.
    + case_bool_decide as Hs; simpl.
      * split; [|reflexivity]. intros _. left. eauto.
      * destruct (Z.ltb_spec TaskStateRunning (Status_State t)); simpl.
        -- split; [auto | reflexivity].
        -- split; [discriminate|]. intros [(? & [= <-] & ?)|?]; [tauto | lia].
    + destruct (Z.ltb_spec TaskStateRunning (Status_State t)); simpl.
      * split; [auto | reflexivity].
      * split; [discriminate|]. intros [(? & [=] & ?)|?]. lia.
  - destruct n as [node|]; simpl.
    + case_bool_decide as Hs; simpl.
      * split; [discriminate|]. intros Hn. exfalso. apply Hn. left. eauto.
      * destruct (Z.ltb_spec TaskStateRunning (Status_State t)); simpl.
        -- split; [discriminate|]. intros Hn. exfalso. apply Hn. auto.
        -- split; [|reflexivity]. intros _ [(? & [= <-] & ?)|?]; [tauto | lia].
    + destruct (Z.ltb_spec TaskStateRunning (Status_State t)); simpl.
      * split; [discriminate|]. intros Hn. exfalso. apply Hn. auto.
      * split; [|reflexivity]. intros _ [(? & [=] & ?)|?]. lia.
  - intros r' rt'. unfold DelayStart, register. simpl.
    destruct (delays _ !! ID built) as [old|]; simpl; [discriminate|].
    intros [= <- <-]. simpl.
    eexists _, _. rewrite lookup_insert_eq. split; [reflexivity|]. simpl.
    rewrite lookup_insert_eq. split; [reflexivity|]. auto.
Qed.

End RestartClaims.

(** ** Accounting of restarts *)

Section Accounting.
Context {imports : Imports} {new_task : NewTask}.
Context {Tx Err : Type} {st : Store Tx Err}.

Lemma recordRestartHistory_effect now restartTask service policy r :
  Spec_Restart service = Some policy ->
  MaxAttempts policy <> 0%N ->
  let k := recordTuple restartTask in
  let r' := recordRestartHistory now restartTask service r in
  is_Some (history r' !! k)
  /\ total_restarts r' k = uint64_incr (total_restarts r k)
  /\ (exists s, historyByService r' !! ServiceID restartTask = Some s /\ k ∈ s)
  /\ (Window policy <> 0 ->
      window_events r' k = window_events r k ++ [{| timestamp := now |}])
  /\ (Window policy = 0 -> window_events r' k = window_events r k)
  /\ (forall k', k' <> k -> history r' !! k' = history r !! k')
  /\ delays r' = delays r.
Proof.
  intros Hpol Hmax. cbv zeta. unfold recordRestartHistory.
  rewrite Hpol, bool_decide_eq_false_2 by assumption. cbv zeta.
  unfold total_restarts, window_events. simpl.
  rewrite lookup_insert_eq. simpl.
  split; [eauto|]. split.
  { destruct (history r !! recordTuple restartTask); reflexivity. }
  split.
  { eexists. rewrite lookup_insert_eq. split; [reflexivity | set_solver]. }
  split.
  { intros Hw. rewrite bool_decide_eq_true_2 by assumption. simpl.
    destruct (history r !! recordTuple restartTask) as [info|]; simpl;
      [destruct (restartedInstances info)|]; reflexivity. }
  split.
  { intros Hw. rewrite bool_decide_eq_false_2 by (intros H; exact (H Hw)).
    destruct (history r !! recordTuple restartTask) as [info|]; reflexivity. }
  split; [|reflexivity].
  intros k' Hne. rewrite lookup_insert_ne by congruence. reflexivity.
Qed.

Lemma DelayStart_history ctx service oldTask newTaskID delay waitStop r rt :
  history (Call_sup (DelayStart ctx service oldTask newTaskID delay waitStop r rt))
  = history r.
Proof.
  unfold DelayStart, register. destruct (delays r !! newTaskID); reflexivity.
Qed.

(** A call of [Restart] that creates its replacement: the history it leaves
    is the one [recordRestartHistory] leaves after [shouldRestart]. *)
Lemma Restart_restarted_history ctx (tx : Tx) service t newID now now' r rt
    restartTask d w tx2 c :
  Restart ctx tx service t newID now now' r rt
  = (Restarted restartTask d w, tx2, c) ->
  history (Call_sup c)
  = history (recordRestartHistory now' restartTask service
               (shouldRestart now (set_DesiredState TaskStateShutdown t)
                  service r).2).
Proof.
  unfold Restart.
  destruct (UpdateTask tx _) as [[err|] tx1]; [discriminate|]. simpl.
  destruct (shouldRestart now _ service r) as [[|] r1]; simpl; [|discriminate].
  match goal with
  | |- context [match ?b with Some _ => _ | None => (Unsupported, _, _) end] =>
      destruct b as [built|]; [|discriminate]
  end.
  destruct (CreateTask tx1 _) as [[err|] tx3]; [discriminate|].
  intros [= <- <- <- <- <-].
  destruct (DelayStart _ _ _ _ _ _ _ _) eqn:Hd; simpl;
    pose proof (DelayStart_history ctx service
                  (Some (set_DesiredState TaskStateShutdown t))
                  (ID (set_DesiredState TaskStateReady built))
                  (match Spec_Restart service with
                   | Some policy =>
                       if bool_decide (Delay policy ≠ 0)
                          && match GetNode tx1 (NodeID t) with
                             | None => true
                             | Some n =>
                                 bool_decide (Node_Spec_Availability n
                                              ≠ NodeAvailabilityDrain)
                             end
                       then Delay policy else 0
                   | None => 0
                   end)
                  (if match GetNode tx1 (NodeID t) with
                      | Some n => bool_decide (Node_Status_State n = NodeStatus_DOWN)
                      | None => false
                      end
                      || (TaskStateRunning <? Status_State t)
                   then false else true)
                  (recordRestartHistory now'
                     (set_DesiredState TaskStateReady built) service r1) rt)
      as Hh;
    simpl in Hd, Hh; rewrite Hd in Hh; exact Hh.
Qed.

Lemma uint64_incr_iter n x :
  (x < 2 ^ 64)%N ->
  Nat.iter n uint64_incr x = ((x + N.of_nat n) mod 2 ^ 64)%N.
Proof.
  intros Hx. induction n as [|n IH].
  - simpl. rewrite N.add_0_r, N.mod_small by assumption. reflexivity.
  - rewrite Nat.iter_succ, IH. unfold uint64_incr.
    rewrite N.Div0.add_mod_idemp_l. f_equal. lia.
Qed.

(** The entry of a key over a run of restarts of this key. *)
Lemma RestartAll_entry service policy calls :
  Spec_Restart service = Some policy ->
  MaxAttempts policy <> 0%N ->
  forall r rt tasks r' rt' k,
    RestartAll (Tx := Tx) service calls r rt = Some (tasks, r', rt') ->
    Forall (fun task => recordTuple task = k) tasks ->
    total_restarts r' k
    = Nat.iter (length calls) uint64_incr (total_restarts r k)
    /\ (Window policy <> 0 ->
        (length (window_events r' k)
         <= length (window_events r k) + length calls)%nat
        /\ ((forall c e, c ∈ calls ->
               (e ∈ window_events r k
                \/ exists c', c' ∈ calls /\ timestamp e = call_now' c') ->
               Time_Add (call_now c) (Duration_neg (Window policy))
               < timestamp e) ->
            window_events r' k
            = window_events r k
              ++ ((fun c => {| timestamp := call_now' c |}) <$> calls))).
Proof.
  intros Hpol Hmax. induction calls as [|c calls IH];
    intros r rt tasks r' rt' k Hrun Hk.
  - simpl in Hrun. injection Hrun as <- <- <-. simpl.
    split; [reflexivity|]. intros _. split; [lia|].
    intros _. rewrite app_nil_r. reflexivity.
  - simpl in Hrun.
    destruct (Restart _ _ _ _ _ _ _ r rt) as [[o tx2] cl] eqn:Hcall.
    destruct o as [| | | |restartTask d w]; try discriminate.
    destruct cl as [a r1 rt1|]; [|discriminate].
    destruct (RestartAll service calls r1 rt1) as [[[tasks1 r2] rt2]|] eqn:Hrest;
      [|discriminate].
    injection Hrun as <- <- <-.
    apply Forall_cons in Hk as [Hk1 Hk].
    destruct (IH _ _ _ _ _ _ Hrest Hk) as [IHt IHw]. clear IH.
    pose proof (Restart_restarted_history _ _ _ _ _ _ _ _ _ _ _ _ _ _ Hcall)
      as Hh. simpl in Hh.
    set (t' := set_DesiredState TaskStateShutdown (call_task c)) in *.
    set (rs := (shouldRestart (call_now c) t' service r).2) in *.
    destruct (recordRestartHistory_effect (call_now' c) restartTask service
                policy rs Hpol Hmax)
      as (_ & Htot & _ & Hwin & _ & _ & _).
    rewrite Hk1 in Htot, Hwin.
    destruct (shouldRestart_history (call_now c) t' service r k)
      as [Hst Hsw]. fold rs in Hst, Hsw.
    assert (Ht1 : total_restarts r1 k = uint64_incr (total_restarts r k)).
    { unfold total_restarts at 1. rewrite Hh.
      fold (total_restarts
              (recordRestartHistory (call_now' c) restartTask service rs) k).
      rewrite Htot, Hst. reflexivity. }
    assert (Hw1 : Window policy <> 0 ->
                  window_events r1 k
                  = window_events rs k ++ [{| timestamp := call_now' c |}]).
    { intros Hw. unfold window_events at 1. rewrite Hh.
      fold (window_events
              (recordRestartHistory (call_now' c) restartTask service rs) k).
      apply Hwin, Hw. }
    split.
    { rewrite IHt, Ht1. simpl. rewrite <- Nat.iter_succ_r. reflexivity. }
    intros Hw. specialize (IHw Hw) as [IHlen IHeq].
    specialize (Hw1 Hw).
    assert (Hle : (length (window_events rs k)
                   <= length (window_events r k))%nat).
    { destruct Hsw as [->|(p & _ & _ & ->)]; [lia | apply pruneFront_length]. }
    split.
    { rewrite Hw1, length_app in IHlen. simpl in *. lia. }
    intros Hin.
    assert (Hsame : window_events rs k = window_events r k).
    { destruct Hsw as [->|(p & Hp & _ & ->)]; [reflexivity|].
      rewrite Hpol in Hp. injection Hp as <-.
      apply pruneFront_fixed. intros e He.
      apply Hin; [apply elem_of_cons; auto|].
      left. destruct (window_events r k); [discriminate|].
      injection He as ->. apply elem_of_cons. auto. }
    rewrite IHeq, Hw1, Hsame.
    + rewrite <- app_assoc. reflexivity.
    + intros c0 e Hc0 He. apply Hin; [apply elem_of_cons; auto|].
      rewrite Hw1, Hsame in He.
      destruct He as [He|(c' & Hc' & He)].
      * apply elem_of_app in He as [He|He]; [left; exact He|].
        right. exists c. split; [apply elem_of_cons; auto|].
        apply list_elem_of_singleton in He. subst e. reflexivity.
      * right. exists c'. split; [apply elem_of_cons; auto | exact He].
Qed.

End Accounting.

Section AccountingClaim.
Context {imports : Imports} {new_task : NewTask}.
Context {Tx Err : Type} {st : Store Tx Err}.

(** C7, amended: [recordRestartHistory] changes nothing when the service has
    no restart policy or max_attempts = 0; otherwise, for the instance tuple
    of the replacement task, it makes sure the history has an entry,
    increments its total_restarts (modulo 2^64), puts the tuple in the index
    of the service, and appends the current timestamp to the window events
    exactly when window is not 0.  After N calls of [Restart] that each
    create a replacement with the same tuple, from a history without entry
    for it, total_restarts is N (modulo 2^64) and, when window is not 0, the
    number of window events is at most N ([shouldRestart] prunes the list at
    each call); it is N when the threshold now - window of every call is
    before the timestamp of every recorded restart. *)
Theorem recordRestartHistory_accounting service :
  (forall now restartTask r,
     (Spec_Restart service = None
      \/ exists policy,
           Spec_Restart service = Some policy /\ MaxAttempts policy = 0%N) ->
     recordRestartHistory now restartTask service r = r)
  /\ (forall policy,
        Spec_Restart service = Some policy ->
        MaxAttempts policy <> 0%N ->
        (forall now restartTask r,
           let k := recordTuple restartTask in
           let r' := recordRestartHistory now restartTask service r in
           is_Some (history r' !! k)
           /\ total_restarts r' k = uint64_incr (total_restarts r k)
           /\ (exists s,
                 historyByService r' !! ServiceID restartTask = Some s
                 /\ k ∈ s)
           /\ (Window policy <> 0 ->
               window_events r' k
               = window_events r k ++ [{| timestamp := now |}])
           /\ (Window policy = 0 -> window_events r' k = window_events r k))
        /\ (forall (calls : list (RestartCall (Tx := Tx))) r rt tasks r' rt' k,
              history r !! k = None ->
              RestartAll service calls r rt = Some (tasks, r', rt') ->
              Forall (fun task => recordTuple task = k) tasks ->
              total_restarts r' k = (N.of_nat (length calls) mod 2 ^ 64)%N
              /\ (Window policy <> 0 ->
                  (length (window_events r' k) <= length calls)%nat
                  /\ ((forall c c',
                         c ∈ calls -> c' ∈ calls ->
                         Time_Add (call_now c) (Duration_neg (Window policy))
                         < call_now' c') ->
                      length (window_events r' k) = length calls)))).
Proof.
  split.
  - intros now restartTask r Hno. unfold recordRestartHistory.
    destruct Hno as [->|(policy & -> & Hz)]; [reflexivity|].
    rewrite bool_decide_eq_true_2 by assumption. reflexivity.
  - intros policy Hpol Hmax. split.
    + intros now restartTask r. cbv zeta.
      destruct (recordRestartHistory_effect now restartTask service policy r
                  Hpol Hmax) as (H1 & H2 & H3 & H4 & H5 & _).
      auto.
    + intros calls r rt tasks r' rt' k Hnone Hrun Hk.
      destruct (RestartAll_entry service policy calls Hpol Hmax
                  _ _ _ _ _ _ Hrun Hk) as [Ht Hw].
      assert (H0 : total_restarts r k = 0%N).
      { unfold total_restarts. rewrite Hnone. reflexivity. }
      assert (He : window_events r k = []).
      { unfold window_events. rewrite Hnone. reflexivity. }
      split.
      { rewrite Ht, H0, uint64_incr_iter by reflexivity. reflexivity. }
      intros Hnz. destruct (Hw Hnz) as [Hlen Heq]. rewrite He in Hlen, Heq.
      split; [simpl in Hlen; exact Hlen|].
      intros Hin. rewrite Heq.
      * simpl. rewrite length_fmap. reflexivity.
      * intros c e Hc [Hemp|(c' & Hc' & ->)].
        -- apply elem_of_nil in Hemp. contradiction.
        -- apply Hin; assumption.
Qed.

End AccountingClaim.

(** ** Cancellation and the delay loop *)

Section Cancellation.
Context {imports : Imports} {new_task : NewTask}.
Context {Tx Err : Type} {st : Store Tx Err}.

(** Calling the cancel function of every handle of a list. *)
Lemma fire_each ds rt :
  let rt' := foldr (fun delay rt => fire {[cancel delay]} rt) rt ds in
  fired rt' = fired rt ∪ list_to_set (cancel <$> ds)
  /\ closed rt' = closed rt /\ loops rt' = loops rt /\ unused rt' = unused rt.
Proof.
  cbv zeta. induction ds as [|d ds IH]; simpl.
  - split; [|auto]. rewrite union_empty_r_L. reflexivity.
  - destruct IH as (-> & -> & -> & ->). split; [|auto].
    rewrite (union_comm_L {[cancel d]}), union_assoc_L. reflexivity.
Qed.

Lemma registered_cancel (r : RestartSupervisor) k :
  k ∈ (list_to_set (cancel <$> (snd <$> map_to_list (delays r))) : gset nat)
  <-> exists id d, delays r !! id = Some d /\ cancel d = k.
Proof.
  rewrite elem_of_list_to_set, list_elem_of_fmap. split.
  - intros (d & -> & Hd). apply list_elem_of_fmap in Hd as ([id d'] & -> & Hin).
    apply elem_of_map_to_list in Hin. eauto.
  - intros (id & d & Hd & <-). exists d. split; [reflexivity|].
    apply list_elem_of_fmap. exists (id, d). split; [reflexivity|].
    apply elem_of_map_to_list. exact Hd.
Qed.

(** [CancelAll] always returns at once: it calls the cancel function of
    every registered handle, receives from no channel, and leaves the
    registry, the channels and the goroutines as they are. *)
Lemma CancelAll_returns r rt :
  exists rt',
    CancelAll r rt = Returns () r rt'
    /\ (forall k, k ∈ fired rt' <->
                  k ∈ fired rt
                  \/ exists id d, delays r !! id = Some d /\ cancel d = k)
    /\ closed rt' = closed rt /\ loops rt' = loops rt.
Proof.
  unfold CancelAll. simpl.
  destruct (fire_each (snd <$> map_to_list (delays r)) rt)
    as (Hf & Hc & Hl & _).
  eexists. split; [reflexivity|]. split; [|auto].
  intros k. rewrite Hf, elem_of_union, registered_cancel. reflexivity.
Qed.

Lemma Cancel_fired taskID r rt k :
  k ∈ fired (Call_rt (Cancel taskID r rt)) ->
  k ∈ fired rt \/ exists d, delays r !! taskID = Some d /\ cancel d = k.
Proof.
  unfold Cancel. destruct (delays r !! taskID) as [d|]; simpl; [|auto].
  case_bool_decide; simpl; rewrite elem_of_union, elem_of_singleton;
    intros [? | ->]; eauto.
Qed.

Lemma DelayStart_fired ctx service oldTask newTaskID delay waitStop r rt k :
  k ∈ fired (Call_rt (DelayStart ctx service oldTask newTaskID delay waitStop r rt)) ->
  k ∈ fired rt \/ exists d, delays r !! newTaskID = Some d /\ cancel d = k.
Proof.
  unfold DelayStart, register.
  destruct (delays r !! newTaskID) as [d|]; simpl; [|auto].
  rewrite elem_of_union, elem_of_singleton. intros [? | ->]; eauto.
Qed.

Lemma recordRestartHistory_delays now restartTask service r :
  delays (recordRestartHistory now restartTask service r) = delays r.
Proof.
  unfold recordRestartHistory. destruct (Spec_Restart service); [|reflexivity].
  case_bool_decide; reflexivity.
Qed.

Lemma Restart_fired ctx (tx : Tx) service t newID now now' r rt k :
  k ∈ fired (Call_rt (Restart ctx tx service t newID now now' r rt).2) ->
  k ∈ fired rt \/ exists id d, delays r !! id = Some d /\ cancel d = k.
Proof.
  unfold Restart.
  destruct (UpdateTask tx _) as [[err|] tx1]; simpl; [auto|].
  pose proof (shouldRestart_delays now
                (set_DesiredState TaskStateShutdown t) service r) as [Hd _].
  destruct (shouldRestart now _ service r) as [[|] r1]; simpl; [|auto].
  simpl in Hd.
  match goal with
  | |- context [match ?b with Some _ => _ | None => (Unsupported, _, _) end] =>
      destruct b as [built|]; simpl; [|auto]
  end.
  destruct (CreateTask tx1 _) as [[err|] tx3]; simpl; [auto|].
  match goal with
  | |- context [Call_map _ ?c] =>
      replace (Call_rt (Call_map (fun _ : nat => ()) c)) with (Call_rt c)
        by (destruct c; reflexivity)
  end.
  intros Hk. apply DelayStart_fired in Hk as [Hk|(d & Hk & <-)]; [auto|].
  rewrite recordRestartHistory_delays, Hd in Hk. eauto.
Qed.

(** Calling cancel functions other than the one of its context changes no
    step of a delay loop. *)
Lemma loop_step_fire ch ev own l (w : Tx * RestartSupervisor * Runtime) F :
  loops w.2 !! ch = Some l ->
  loop_ctx l = WithCancel Background own ->
  own ∉ F ->
  loop_step ch ev (w.1, fire F w.2)
  = (fun w' => (w'.1, fire F w'.2)) <$> loop_step ch ev w.
Proof.
  destruct w as [[tx r] rt]. simpl. intros Hl Hctx Hown.
  unfold loop_step. simpl. rewrite Hl, Hctx. simpl.
  rewrite !orb_false_r.
  assert (Hd : bool_decide (own ∈ fired rt ∪ F) = bool_decide (own ∈ fired rt)).
  { apply bool_decide_ext. rewrite elem_of_union. tauto. }
  rewrite Hd.
  destruct (loop_phase l), ev; try reflexivity;
    unfold afterDelay, commit, teardown, park;
    repeat (case_bool_decide || case_match); reflexivity.
Qed.

(** A delay loop ends without its transaction only once the cancel function
    of its context has been called; and no step calls a cancel function. *)
Lemma loop_step_cut_short ch ev own l (w w' : Tx * RestartSupervisor * Runtime) :
  loops w.2 !! ch = Some l ->
  loop_ctx l = WithCancel Background own ->
  loop_step ch ev w = Some w' ->
  fired w'.2 = fired w.2
  /\ ((loop_phase <$> (loops w'.2 !! ch)) = Some (Ended false) -> own ∈ fired w.2).
Proof.
  destruct w as [[tx r] rt]. simpl. intros Hl Hctx.
  unfold loop_step. simpl. rewrite Hl, Hctx. simpl. rewrite orb_false_r.
  destruct (loop_phase l) eqn:Hph, ev; try discriminate;
    unfold afterDelay, commit, teardown, park;
    repeat (case_bool_decide || case_match); try discriminate;
    intros [= <-]; simpl; (split; [reflexivity|]);
    rewrite ?lookup_insert_eq; simpl; try discriminate; auto.
Qed.

End Cancellation.

Section ContextClaim.
Context {imports : Imports} {new_task : NewTask}.
Context {Tx Err : Type} {st : Store Tx Err}.

(** C10: the context of the delay loop that [DelayStart] starts is a child
    of the background context, whatever context the caller passes (and the
    call itself is the same for every context passed).  For a caller's
    context made before the call, calling its cancel functions neither ends
    the loop's context nor changes any later step of the loop; the loop ends
    without its [StartNow] transaction only once the cancel function in its
    registry handle has been called.  [Cancel], [CancelAll], [DelayStart]
    and [Restart] (through [DelayStart]) call no cancel function other than
    those of handles in the registry, and the steps of a loop call none. *)
Theorem DelayStart_context_isolated ctx service oldTask newTaskID delay
    waitStop r rt ch r' rt' :
  (forall k, k ∈ ctx_cancels ctx -> (k < unused rt)%nat) ->
  DelayStart ctx service oldTask newTaskID delay waitStop r rt
  = Returns ch r' rt' ->
  (forall ctx',
     DelayStart ctx' service oldTask newTaskID delay waitStop r rt
     = Returns ch r' rt')
  /\ (exists l own,
        loops rt' !! ch = Some l
        /\ delays r' !! newTaskID = Some {| cancel := own; doneCh := ch |}
        /\ loop_ctx l = WithCancel Background own
        /\ (own ∉ ctx_cancels ctx)
        /\ (forall called,
              ctx_done (called ∪ ctx_cancels ctx) (loop_ctx l)
              = ctx_done called (loop_ctx l))
        /\ (forall phase ev (w : Tx * RestartSupervisor * Runtime),
              loops w.2 !! ch = Some (set_phase phase l) ->
              loop_step ch ev (w.1, fire (ctx_cancels ctx) w.2)
              = (fun w' => (w'.1, fire (ctx_cancels ctx) w'.2))
                  <$> loop_step ch ev w)
        /\ (forall phase ev (w w' : Tx * RestartSupervisor * Runtime),
              loops w.2 !! ch = Some (set_phase phase l) ->
              loop_step ch ev w = Some w' ->
              fired w'.2 = fired w.2
              /\ ((loop_phase <$> (loops w'.2 !! ch)) = Some (Ended false) ->
                  own ∈ fired w.2)))
  /\ (forall taskID r0 rt0 k,
        k ∈ fired (Call_rt (Cancel taskID r0 rt0)) ->
        k ∈ fired rt0
        \/ exists d, delays r0 !! taskID = Some d /\ cancel d = k)
  /\ (forall r0 rt0 k,
        k ∈ fired (Call_rt (CancelAll r0 rt0)) ->
        k ∈ fired rt0
        \/ exists id d, delays r0 !! id = Some d /\ cancel d = k)
  /\ (forall ctx0 service0 oldTask0 id delay0 waitStop0 r0 rt0 k,
        k ∈ fired (Call_rt (DelayStart ctx0 service0 oldTask0 id delay0
                              waitStop0 r0 rt0)) ->
        k ∈ fired rt0
        \/ exists d, delays r0 !! id = Some d /\ cancel d = k)
  /\ (forall ctx0 (tx0 : Tx) service0 t0 newID now now' r0 rt0 k,
        k ∈ fired (Call_rt (Restart ctx0 tx0 service0 t0 newID now now'
                              r0 rt0).2) ->
        k ∈ fired rt0
        \/ exists id d, delays r0 !! id = Some d /\ cancel d = k).
Proof.
  intros Hold Hcall.
  split; [intros ctx'; exact Hcall|].
  split.
  2:{ split; [intros; eapply Cancel_fired; eassumption|].
      split.
      { intros r0 rt0 k Hk.
        destruct (CancelAll_returns r0 rt0) as (rt1 & Heq & Hf & _).
        rewrite Heq in Hk. simpl in Hk. apply Hf. exact Hk. }
      split; [intros; eapply DelayStart_fired; eassumption|].
      intros; eapply Restart_fired; eassumption. }
  unfold DelayStart, register in Hcall.
  destruct (delays r !! newTaskID) as [old|]; [discriminate|].
  injection Hcall as <- <- <-. simpl.
  eexists _, (unused rt). rewrite !lookup_insert_eq.
  split; [reflexivity|]. split; [reflexivity|]. simpl.
  split; [reflexivity|].
  assert (Hown : unused rt ∉ ctx_cancels ctx).
  { intros Hin. apply Hold in Hin. lia. }
  split; [exact Hown|]. split.
  { intros called. rewrite !orb_false_r. apply bool_decide_ext.
    rewrite elem_of_union. tauto. }
  split.
  - intros phase ev w Hl.
    apply (loop_step_fire _ ev (unused rt) _ w _ Hl); [reflexivity | exact Hown].
  - intros phase ev w w' Hl Hstep.
    apply (loop_step_cut_short _ ev (unused rt) _ w w' Hl); [reflexivity | exact Hstep].
Qed.

End ContextClaim.

(** ** The properties on concrete runs *)

Section Examples.
#[local] Existing Instance demo_imports.
#[local] Existing Instance demo_new_task.
#[local] Existing Instance mem_store.

(** C3 (defect of the code): a delay loop for "t2" is blocked in its first
    [select]; [CancelAll] calls its cancel function and returns at once,
    without receiving from its channel: when it returns, the channel is not
    closed, the handle is still in the registry and the loop has not ended.
    One step of the loop later, both have happened. *)
Theorem CancelAll_returns_before_done :
  let service := demo_service ModeReplicated None in
  let started :=
    DelayStart Background service (Some (demo_task "t1" 1)) "t2"
      (30 * Second) true NewRestartSupervisor NewRuntime in
  exists tx r rt rt',
    loop_step 0 Go (demo_tx [], Call_sup started, Call_rt started)
    = Some (tx, r, rt)
    /\ delays r !! "t2" = Some {| cancel := 0%nat; doneCh := 0%nat |}
    /\ CancelAll r rt = Returns () r rt'
    /\ (0%nat ∈ fired rt')
    /\ (0%nat ∉ closed rt')
    /\ (delays r ≠ ∅)
    /\ (loop_phase <$> (loops rt' !! 0%nat)) = Some Delaying
    /\ match loop_step 0 CtxDone (tx, r, rt') with
       | Some (_, r2, rt2) =>
           delays r2 = ∅ /\ (0%nat ∈ closed rt2)
           /\ (loop_phase <$> (loops rt2 !! 0%nat)) = Some (Ended false)
       | None => False
       end.
Proof.
  cbv zeta. eexists _, _, _, _.
  split; [vm_compute; reflexivity|].
  split; [vm_compute; reflexivity|].
  split; [vm_compute; reflexivity|].
  split; [vm_compute; reflexivity|].
  split; [intros H; vm_compute in H; discriminate|].
  split; [intros H; apply (f_equal (fun m => m !! "t2")) in H;
          vm_compute in H; discriminate|].
  split; [vm_compute; reflexivity|].
  vm_compute. auto.
Qed.

(** C1 as stated fails without the test of the restart condition: with the
    condition NONE, a policy of 3 attempts in a window of 10 and one
    restart recorded at time 0, at time 100 no event is within the window,
    yet [shouldRestart] returns false and keeps the event. *)
Lemma shouldRestart_window_bound_counterexample :
  let policy := demo_policy RestartOnNone 0 3 10 in
  let service := demo_service ModeReplicated (Some policy) in
  let t := demo_task "t1" 1 in
  let r := demo_history demo_key 1 (Some [0]) in
  let kept := pruneFront (100 - Window policy) [{| timestamp := 0 |}] in
  Spec_Restart service = Some policy
  /\ (0 < MaxAttempts policy)%N
  /\ 0 < Window policy
  /\ history r !! taskTuple t service
     = Some {| totalRestarts := 1;
               restartedInstances := Some [{| timestamp := 0 |}] |}
  /\ kept = []
  /\ window_events (shouldRestart 100 t service r).2 (taskTuple t service)
     <> kept
  /\ ~ ((shouldRestart 100 t service r).1 = true
        <-> (N.of_nat (length kept) < MaxAttempts policy)%N).
Proof.
  cbv zeta.
  split; [reflexivity|]. split; [reflexivity|]. split; [reflexivity|].
  split; [vm_compute; reflexivity|]. split; [reflexivity|].
  split; [vm_compute; discriminate|].
  intros [_ H]. vm_compute in H. specialize (H eq_refl). discriminate.
Qed.

(** With window 0, two restarts counted and at most 3: allowed, nothing
    changes.  With window 10 at time 12, the event of time 2, which is
    exactly at the threshold, is removed and the event of time 5 kept; one
    event remains for at most 2: allowed. *)
Lemma shouldRestart_window_bound_witness :
  (let service :=
     demo_service ModeReplicated (Some (demo_policy RestartOnAny 0 3 0)) in
   let r := demo_history demo_key 2 None in
   (shouldRestart 12 (demo_task "t1" 1) service r).2 = r
   /\ ((shouldRestart 12 (demo_task "t1" 1) service r).1 = true
       <-> (2 < 3)%N))
  /\ (let service :=
        demo_service ModeReplicated (Some (demo_policy RestartOnAny 0 2 10)) in
      let r := demo_history demo_key 2 (Some [2; 5]) in
      window_events (shouldRestart 12 (demo_task "t1" 1) service r).2 demo_key
      = [{| timestamp := 5 |}]
      /\ ((shouldRestart 12 (demo_task "t1" 1) service r).1 = true
          <-> (1 < 2)%N)).
Proof.
  cbv zeta. split.
  - destruct (shouldRestart_window_bound 12 (demo_task "t1" 1)
                (demo_service ModeReplicated
                   (Some (demo_policy RestartOnAny 0 3 0)))
                (demo_policy RestartOnAny 0 3 0)
                (demo_history demo_key 2 None)
                {| totalRestarts := 2; restartedInstances := None |})
      as [H _].
    + reflexivity.
    + reflexivity.
    + reflexivity.
    + vm_compute. reflexivity.
    + apply H. reflexivity.
  - destruct (shouldRestart_window_bound 12 (demo_task "t1" 1)
                (demo_service ModeReplicated
                   (Some (demo_policy RestartOnAny 0 2 10)))
                (demo_policy RestartOnAny 0 2 10)
                (demo_history demo_key 2 (Some [2; 5]))
                {| totalRestarts := 2;
                   restartedInstances :=
                     Some [{| timestamp := 2 |}; {| timestamp := 5 |}] |})
      as [_ H].
    + reflexivity.
    + reflexivity.
    + reflexivity.
    + vm_compute. reflexivity.
    + destruct (H ltac:(reflexivity) _ eq_refl) as (_ & _ & _ & Hw & _ & Hb).
      split; [exact Hw | exact Hb].
Defined.

(** The five cases of the gate: condition NONE; ON_FAILURE for a completed
    task; no policy; max_attempts 0; no entry for instance 2. *)
Lemma shouldRestart_policy_gate_witness :
  let none := demo_service ModeReplicated (Some (demo_policy RestartOnNone 0 3 10)) in
  let failure := demo_service ModeReplicated (Some (demo_policy RestartOnFailure 0 3 10)) in
  let unlimited := demo_service ModeReplicated (Some (demo_policy RestartOnAny 0 0 10)) in
  let free := demo_service ModeReplicated None in
  let completed := set_DesiredState 4 {| ID := "t1"; ServiceID := "web";
                     Instance := 1; NodeID := "n1"; DesiredState := 4;
                     Status_State := 6; Status_TerminalState := 6 |} in
  let r := demo_history demo_key 5 (Some [1; 2; 3]) in
  shouldRestart 4 (demo_task "t1" 1) none r = (false, r)
  /\ shouldRestart 4 completed failure r = (false, r)
  /\ shouldRestart 4 (demo_task "t1" 1) free r = (true, r)
  /\ shouldRestart 4 (demo_task "t1" 1) unlimited r = (true, r)
  /\ shouldRestart 4 (demo_task "t1" 2) failure r = (true, r).
Proof.
  cbv zeta.
  split; [|split; [|split; [|split]]].
  - destruct (shouldRestart_policy_gate 4 (demo_task "t1" 1)
                (demo_service ModeReplicated
                   (Some (demo_policy RestartOnNone 0 3 10)))
                (demo_history demo_key 5 (Some [1; 2; 3])))
      as (H & _).
    apply H. reflexivity.
  - match goal with
    | |- shouldRestart ?now ?t ?s ?r = _ =>
        destruct (shouldRestart_policy_gate now t s r) as (_ & H & _)
    end.
    apply H; reflexivity.
  - match goal with
    | |- shouldRestart ?now ?t ?s ?r = _ =>
        destruct (shouldRestart_policy_gate now t s r) as (_ & _ & H & _)
    end.
    apply H; reflexivity.
  - match goal with
    | |- shouldRestart ?now ?t ?s ?r = _ =>
        destruct (shouldRestart_policy_gate now t s r) as (_ & _ & _ & H & _)
    end.
    apply (H eq_refl (demo_policy RestartOnAny 0 0 10)); reflexivity.
  - match goal with
    | |- shouldRestart ?now ?t ?s ?r = _ =>
        destruct (shouldRestart_policy_gate now t s r) as (_ & _ & _ & _ & H)
    end.
    apply H; [reflexivity | vm_compute; reflexivity].
Defined.

(** No task "t2"; a task "t2" already wanted RUNNING; a task "t2" wanted
    READY, which [StartNow] updates. *)
Lemma StartNow_spec_witness :
  let ready := set_DesiredState 3 (demo_task "t2" 1) in
  StartNow (demo_tx []) "t2" = (None, demo_tx [])
  /\ StartNow (demo_tx [demo_task "t2" 1]) "t2"
     = (None, demo_tx [demo_task "t2" 1])
  /\ StartNow (demo_tx [ready]) "t2"
     = UpdateTask (demo_tx [ready]) (set_DesiredState 4 ready).
Proof.
  cbv zeta. split; [|split].
  - apply (StartNow_spec (demo_tx []) "t2"). reflexivity.
  - apply (proj1 (proj2 (StartNow_spec (demo_tx [demo_task "t2" 1]) "t2"))
             (demo_task "t2" 1)); [vm_compute; reflexivity | reflexivity].
  - refine (proj1 (proj2 (proj2 (StartNow_spec
             (demo_tx [set_DesiredState 3 (demo_task "t2" 1)]) "t2"))
             (set_DesiredState 3 (demo_task "t2" 1)) _ _));
      [vm_compute; reflexivity | vm_compute; discriminate].
Defined.

(** The task is not in the store: the error of the update is returned.
    The task is in the store and the condition is NONE: the task is marked
    for shutdown and nothing else changes. *)
Lemma Restart_shutdown_then_gate_witness :
  let t := demo_task "t1" 1 in
  let refusing :=
    demo_service ModeReplicated (Some (demo_policy RestartOnNone 0 3 10)) in
  let r := demo_history demo_key 1 (Some [0]) in
  Restart Background (demo_tx []) refusing t "t2" 100 100 r NewRuntime
  = (UpdateFailed ErrNotExist, demo_tx [], Returns () r NewRuntime)
  /\ Restart Background (demo_tx [t]) refusing t "t2" 100 100 r NewRuntime
     = (Refused, demo_tx [set_DesiredState 5 t], Returns () r NewRuntime).
Proof.
  cbv zeta. split.
  - destruct (Restart_shutdown_then_gate Background (demo_tx [])
                (demo_service ModeReplicated
                   (Some (demo_policy RestartOnNone 0 3 10)))
                (demo_task "t1" 1) "t2" 100 100
                (demo_history demo_key 1 (Some [0])) NewRuntime)
      as (_ & H & _).
    apply (H ErrNotExist (demo_tx [])). vm_compute. reflexivity.
  - destruct (Restart_shutdown_then_gate Background
                (demo_tx [demo_task "t1" 1])
                (demo_service ModeReplicated
                   (Some (demo_policy RestartOnNone 0 3 10)))
                (demo_task "t1" 1) "t2" 100 100
                (demo_history demo_key 1 (Some [0])) NewRuntime)
      as (_ & _ & H).
    apply (H (demo_tx [set_DesiredState 5 (demo_task "t1" 1)])
             (demo_history demo_key 1 (Some [0]))).
    + vm_compute. reflexivity.
    + vm_compute. reflexivity.
Defined.

(** The replacement of instance 7 on node "n1", for each mode. *)
Lemma Restart_replacement_witness :
  let t := demo_task "t1" 7 in
  let tx := demo_tx [t] in
  let tx1 := demo_tx [set_DesiredState 5 t] in
  let run mode :=
    Restart Background tx (demo_service mode None) t "t2" 0 0
      NewRestartSupervisor NewRuntime in
  (exists restartTask,
      Instance restartTask = 7%N
      /\ NodeID restartTask = ""
      /\ DesiredState restartTask = 3
      /\ (run ModeReplicated).1.2 = (CreateTask tx1 restartTask).2
      /\ match (CreateTask tx1 restartTask).1 with
         | None => exists d w, (run ModeReplicated).1.1 = Restarted restartTask d w
         | Some err => (run ModeReplicated).1.1 = CreateFailed err restartTask
         end)
  /\ (exists restartTask,
      Instance restartTask = 0%N
      /\ NodeID restartTask = "n1"
      /\ DesiredState restartTask = 3
      /\ (run ModeGlobal).1.2 = (CreateTask tx1 restartTask).2
      /\ match (CreateTask tx1 restartTask).1 with
         | None => exists d w, (run ModeGlobal).1.1 = Restarted restartTask d w
         | Some err => (run ModeGlobal).1.1 = CreateFailed err restartTask
         end)
  /\ run ModeUnsupported
     = (Unsupported, tx1, Returns () NewRestartSupervisor NewRuntime).
Proof.
  cbv zeta. split; [|split].
  - refine (proj1 (Restart_replacement Background (demo_tx [demo_task "t1" 7])
                     (demo_service ModeReplicated None) (demo_task "t1" 7)
                     "t2" 0 0 NewRestartSupervisor NewRuntime
                     (demo_tx [set_DesiredState 5 (demo_task "t1" 7)])
                     NewRestartSupervisor _ _) _);
      [vm_compute; reflexivity | reflexivity | reflexivity].
  - refine (proj1 (proj2
              (Restart_replacement Background (demo_tx [demo_task "t1" 7])
                 (demo_service ModeGlobal None) (demo_task "t1" 7)
                 "t2" 0 0 NewRestartSupervisor NewRuntime
                 (demo_tx [set_DesiredState 5 (demo_task "t1" 7)])
                 NewRestartSupervisor _ _)) _);
      [vm_compute; reflexivity | reflexivity | reflexivity].
  - refine (proj1 (proj2 (proj2
              (Restart_replacement Background (demo_tx [demo_task "t1" 7])
                 (demo_service ModeUnsupported None) (demo_task "t1" 7)
                 "t2" 0 0 NewRestartSupervisor NewRuntime
                 (demo_tx [set_DesiredState 5 (demo_task "t1" 7)])
                 NewRestartSupervisor _ _)) _));
      [vm_compute; reflexivity | reflexivity | reflexivity].
Defined.

(** The node of the old task is DOWN and not drained, the policy asks for a
    delay of 5: the delay is kept and the loop does not wait for the old
    task. *)
Lemma Restart_delay_and_wait_witness :
  let t := demo_task "t1" 1 in
  let tx := demo_tx_on [t] [demo_node 2 NodeAvailabilityActive] in
  let service :=
    demo_service ModeReplicated (Some (demo_policy RestartOnAny 5 0 0)) in
  let out := Restart Background tx service t "t2" 0 0
               NewRestartSupervisor NewRuntime in
  out.1.1 = Restarted (set_DesiredState 3 (demo_newTask "t2" service 1)) 5 false
  /\ (forall r' rt', out.2 = Returns () r' rt' ->
        exists d l,
          delays r' !! "t2" = Some d
          /\ loops rt' !! doneCh d = Some l
          /\ loop_delay l = 5
          /\ loop_waitStop l = false).
Proof.
  cbv zeta. split; [vm_compute; reflexivity|].
  refine (proj2 (proj2 (proj2
            (Restart_delay_and_wait Background
               (demo_tx_on [demo_task "t1" 1]
                  [demo_node 2 NodeAvailabilityActive])
               (demo_service ModeReplicated
                  (Some (demo_policy RestartOnAny 5 0 0)))
               (demo_task "t1" 1) "t2" 0 0 NewRestartSupervisor NewRuntime
               (set_DesiredState 3
                  (demo_newTask "t2"
                     (demo_service ModeReplicated
                        (Some (demo_policy RestartOnAny 5 0 0))) 1))
               5 false
               (Restart Background
                  (demo_tx_on [demo_task "t1" 1]
                     [demo_node 2 NodeAvailabilityActive])
                  (demo_service ModeReplicated
                     (Some (demo_policy RestartOnAny 5 0 0)))
                  (demo_task "t1" 1) "t2" 0 0 NewRestartSupervisor
                  NewRuntime).1.2
               (Restart Background
                  (demo_tx_on [demo_task "t1" 1]
                     [demo_node 2 NodeAvailabilityActive])
                  (demo_service ModeReplicated
                     (Some (demo_policy RestartOnAny 5 0 0)))
                  (demo_task "t1" 1) "t2" 0 0 NewRestartSupervisor
                  NewRuntime).2
               _)))).
  vm_compute. reflexivity.
Defined.

(** C7 as stated fails on the third scenario of the specification: with at
    most 2 attempts in a window of 10, restarts at times 0, 5 and 12 all
    create their replacement, the counter is 3, and the window holds the
    two events of times 5 and 12, the one of time 0 having been pruned. *)
Lemma RestartAll_window_counterexample :
  let policy := demo_policy RestartOnAny 0 2 10 in
  let service := demo_service ModeReplicated (Some policy) in
  let calls :=
    [demo_call "t1" "t2" 0; demo_call "t2" "t3" 5; demo_call "t3" "t4" 12] in
  exists tasks r' rt',
    RestartAll service calls NewRestartSupervisor NewRuntime
    = Some (tasks, r', rt')
    /\ Forall (fun task => recordTuple task = demo_key) tasks
    /\ (0 < MaxAttempts policy)%N
    /\ 0 < Window policy
    /\ total_restarts r' demo_key = 3%N
    /\ window_events r' demo_key = [{| timestamp := 5 |}; {| timestamp := 12 |}]
    /\ length (window_events r' demo_key) <> length calls.
Proof.
  cbv zeta. eexists _, _, _.
  split; [vm_compute; reflexivity|].
  split; [repeat constructor|].
  split; [reflexivity|]. split; [reflexivity|].
  split; [vm_compute; reflexivity|].
  split; [vm_compute; reflexivity|].
  vm_compute. discriminate.
Qed.

(** One record, and two restarts at times 0 and 5 in a window of 10. *)
Lemma recordRestartHistory_accounting_witness :
  let policy := demo_policy RestartOnAny 0 2 10 in
  let service := demo_service ModeReplicated (Some policy) in
  let task := demo_newTask "t2" service 1 in
  let calls := [demo_call "t1" "t2" 0; demo_call "t2" "t3" 5] in
  recordRestartHistory 3 task (demo_service ModeReplicated None)
    NewRestartSupervisor
  = NewRestartSupervisor
  /\ total_restarts (recordRestartHistory 3 task service NewRestartSupervisor)
       demo_key = uint64_incr 0
  /\ window_events (recordRestartHistory 3 task service NewRestartSupervisor)
       demo_key = [{| timestamp := 3 |}]
  /\ (forall tasks r' rt',
        RestartAll service calls NewRestartSupervisor NewRuntime
        = Some (tasks, r', rt') ->
        Forall (fun task => recordTuple task = demo_key) tasks ->
        total_restarts r' demo_key = 2%N
        /\ length (window_events r' demo_key) = 2%nat).
Proof.
  cbv zeta.
  split.
  { apply (proj1 (recordRestartHistory_accounting
                    (demo_service ModeReplicated None))).
    left. reflexivity. }
  destruct (proj2 (recordRestartHistory_accounting
                     (demo_service ModeReplicated
                        (Some (demo_policy RestartOnAny 0 2 10))))
              (demo_policy RestartOnAny 0 2 10) eq_refl
              ltac:(discriminate))
    as [Hone Hrun].
  destruct (Hone 3 (demo_newTask "t2"
                      (demo_service ModeReplicated
                         (Some (demo_policy RestartOnAny 0 2 10))) 1)
              NewRestartSupervisor)
    as (_ & Htot & _ & Hwin & _).
  split; [exact Htot|].
  split; [exact (Hwin ltac:(discriminate))|].
  intros tasks r' rt' Hall Hk.
  destruct (Hrun _ NewRestartSupervisor _ _ _ _ demo_key eq_refl Hall Hk)
    as [Ht Hw].
  split; [exact Ht|].
  destruct (Hw ltac:(discriminate)) as [_ Heq].
  apply Heq. intros c c' Hc Hc'.
  repeat (apply elem_of_cons in Hc as [->|Hc]);
    try (apply elem_of_nil in Hc; contradiction);
    repeat (apply elem_of_cons in Hc' as [->|Hc']);
    try (apply elem_of_nil in Hc'; contradiction);
    reflexivity.
Defined.

(** A caller's context made with cancel function 0 before the call. *)
Lemma DelayStart_context_isolated_witness :
  let caller := WithCancel Background 0 in
  let rt := {| fired := ∅; closed := ∅; loops := ∅; unused := 1 |} in
  let service := demo_service ModeReplicated None in
  let c := DelayStart caller service (Some (demo_task "t1" 1)) "t2" 5 true
             NewRestartSupervisor rt in
  DelayStart (WithCancel (WithCancel Background 0) 0) service
    (Some (demo_task "t1" 1)) "t2" 5 true NewRestartSupervisor rt
  = Returns 1%nat (Call_sup c) (Call_rt c).
Proof.
  cbv zeta.
  refine (proj1 (DelayStart_context_isolated (WithCancel Background 0)
                   (demo_service ModeReplicated None)
                   (Some (demo_task "t1" 1)) "t2" 5 true
                   NewRestartSupervisor
                   {| fired := ∅; closed := ∅; loops := ∅; unused := 1 |}
                   1%nat _ _ _ _) (WithCancel (WithCancel Background 0) 0)).
  - intros k Hk. simpl in Hk.
    apply elem_of_union in Hk as [Hk|Hk].
    + apply elem_of_singleton in Hk. subst k. simpl. lia.
    + apply elem_of_empty in Hk. contradiction.
  - reflexivity.
Defined.

End Examples.

(** ** More on the restart history *)

Section LedgerFacts.
Context {imports : Imports}.

Lemma ClearServiceHistory_lookup sid r tuples k :
  historyByService r !! sid = Some tuples ->
  history (ClearServiceHistory sid r) !! k
  = if decide (k ∈ tuples) then None else history r !! k.
Proof.
  intros Hs. unfold ClearServiceHistory. rewrite Hs. simpl.
  apply option_eq. intros x. rewrite map_lookup_filter_Some. simpl.
  case_decide; split; try tauto; discriminate.
Qed.

Lemma ClearServiceHistory_forgets sid r :
  ledger_ok r ->
  (forall k, serviceID k = sid ->
     history (ClearServiceHistory sid r) !! k = None)
  /\ (forall k, serviceID k <> sid ->
        history (ClearServiceHistory sid r) !! k = history r !! k).
Proof.
  intros [Hin Hof].
  destruct (historyByService r !! sid) as [tuples|] eqn:Hs.
  - split; intros k Hk; rewrite (ClearServiceHistory_lookup _ _ _ _ Hs);
      case_decide as Hmem; try reflexivity.
    + destruct (history r !! k) as [info|] eqn:Hinfo; [|reflexivity].
      destruct (Hin k) as (s & Hs' & Hks); [eauto|].
      rewrite Hk, Hs in Hs'. injection Hs' as <-. contradiction.
    + exfalso. apply Hk. eapply Hof; eassumption.
  - unfold ClearServiceHistory. rewrite Hs.
    split; intros k Hk; [|reflexivity].
    destruct (history r !! k) as [info|] eqn:Hinfo; [|reflexivity].
    destruct (Hin k) as (s & Hs' & _); [eauto|].
    rewrite Hk, Hs in Hs'. discriminate.
Qed.

Lemma ledger_ok_same r r' :
  history r' = history r ->
  historyByService r' = historyByService r ->
  ledger_ok r -> ledger_ok r'.
Proof. unfold ledger_ok. intros -> ->. auto. Qed.

(** [shouldRestart] gives an entry to no key that had none. *)
Lemma shouldRestart_entries now t service r k :
  is_Some (history (shouldRestart now t service r).2 !! k)
  <-> is_Some (history r !! k).
Proof.
  destruct (permits service t) eqn:Hp.
  2:{ rewrite shouldRestart_refused by assumption. reflexivity. }
  rewrite shouldRestart_permitted by assumption.
  destruct (Spec_Restart service) as [policy|]; [|reflexivity].
  case_bool_decide; [reflexivity|].
  destruct (history r !! taskTuple t service) as [info|] eqn:Hinfo;
    [|reflexivity].
  case_bool_decide; [reflexivity|].
  destruct (restartedInstances info) as [l|]; [|reflexivity].
  cbv zeta. simpl.
  destruct (decide (k = taskTuple t service)) as [->|Hne].
  - rewrite lookup_insert_eq, Hinfo. split; eauto.
  - rewrite lookup_insert_ne by congruence. reflexivity.
Qed.

Lemma ledger_ok_shouldRestart now t service r :
  ledger_ok r -> ledger_ok (shouldRestart now t service r).2.
Proof.
  intros [Hin Hof].
  destruct (shouldRestart_delays now t service r) as [_ Hidx].
  split.
  - intros k Hk. rewrite Hidx. apply Hin.
    apply (shouldRestart_entries now t service r k). exact Hk.
  - intros sid s k. rewrite Hidx. apply Hof.
Qed.

Lemma ledger_ok_record now restartTask service r :
  ledger_ok r -> ledger_ok (recordRestartHistory now restartTask service r).
Proof.
  intros [Hin Hof]. unfold recordRestartHistory.
  destruct (Spec_Restart service) as [policy|]; [|split; assumption].
  case_bool_decide; [split; assumption|]. cbv zeta.
  set (k0 := recordTuple restartTask).
  set (sid := ServiceID restartTask).
  assert (Hsid : serviceID k0 = sid) by reflexivity.
  split; simpl.
  - intros k Hk. destruct (decide (k = k0)) as [->|Hne].
    + rewrite Hsid, lookup_insert_eq. eexists. split; [reflexivity|].
      apply elem_of_union. left. apply elem_of_singleton. reflexivity.
    + rewrite lookup_insert_ne in Hk by congruence.
      destruct (Hin k Hk) as (s & Hs & Hks).
      destruct (decide (serviceID k = sid)) as [He|Hd].
      * rewrite He, lookup_insert_eq. rewrite He in Hs. rewrite Hs.
        eexists. split; [reflexivity|]. apply elem_of_union. right. exact Hks.
      * rewrite lookup_insert_ne by congruence. eauto.
  - intros sid' s k Hs Hk. destruct (decide (sid' = sid)) as [->|Hd].
    + rewrite lookup_insert_eq in Hs. injection Hs as <-.
      apply elem_of_union in Hk as [Hk|Hk].
      * apply elem_of_singleton in Hk. subst k. exact Hsid.
      * destruct (historyByService r !! sid) as [s0|] eqn:Hs0.
        -- eapply Hof; eassumption.
        -- apply elem_of_empty in Hk. contradiction.
    + rewrite lookup_insert_ne in Hs by congruence. eapply Hof; eassumption.
Qed.

Lemma ledger_ok_clear sid r :
  ledger_ok r -> ledger_ok (ClearServiceHistory sid r).
Proof.
  intros Hok. pose proof Hok as [Hin Hof].
  destruct (ClearServiceHistory_forgets sid r Hok) as [Hgone Hkept].
  destruct (historyByService r !! sid) as [tuples|] eqn:Hs.
  2:{ unfold ClearServiceHistory. rewrite Hs. exact Hok. }
  assert (Hidx : historyByService (ClearServiceHistory sid r)
                 = delete sid (historyByService r)).
  { unfold ClearServiceHistory. rewrite Hs. reflexivity. }
  split.
  - intros k Hk. destruct (decide (serviceID k = sid)) as [He|Hd].
    + rewrite (Hgone k He) in Hk. destruct Hk. discriminate.
    + rewrite (Hkept k Hd) in Hk. rewrite Hidx, lookup_delete_ne by congruence.
      apply Hin, Hk.
  - intros sid' s k. rewrite Hidx. intros Hs' Hk.
    destruct (decide (sid' = sid)) as [->|Hd].
    + rewrite lookup_delete_eq in Hs'. discriminate.
    + rewrite lookup_delete_ne in Hs' by congruence. eapply Hof; eassumption.
Qed.

Lemma pruneFront_later lookback lookback' l :
  lookback <= lookback' ->
  pruneFront lookback' (pruneFront lookback l) = pruneFront lookback' l.
Proof.
  intros Hle. induction l as [|e l IH]; simpl; [reflexivity|].
  unfold Time_After.
  destruct (Z.ltb_spec lookback (timestamp e)) as [Hlt|Hge]; [reflexivity|].
  rewrite IH.
  destruct (Z.ltb_spec lookback' (timestamp e)) as [Hlt'|_]; [lia | reflexivity].
Qed.

Lemma filter_after_all lookback (l : list restartedInstance) :
  Forall (fun e => lookback < timestamp e) l ->
  filter (fun e => lookback < timestamp e) l = l.
Proof.
  induction 1 as [|e l He _ IH]; [reflexivity|].
  rewrite filter_cons_True by exact He. f_equal. exact IH.
Qed.

Lemma pruneFront_chrono lookback l :
  chronological l ->
  pruneFront lookback l = filter (fun e => lookback < timestamp e) l.
Proof.
  induction l as [|e l IH]; simpl; [reflexivity|].
  intros [Hall Hch]. unfold Time_After.
  destruct (Z.ltb_spec lookback (timestamp e)) as [Hlt|Hge].
  - rewrite filter_cons_True by exact Hlt. f_equal.
    symmetry. apply filter_after_all.
    eapply Forall_impl; [exact Hall|]. simpl. intros e' He'. lia.
  - rewrite filter_cons_False by lia. apply IH, Hch.
Qed.

End LedgerFacts.

Section LedgerProperties.
Context {imports : Imports} {new_task : NewTask}.
Context {Tx Err : Type} {st : Store Tx Err}.

(** X1: [ClearServiceHistory] changes nothing for a service without index
    entry; otherwise it removes from the history exactly the keys indexed
    under the service and removes the index entry; it leaves the index of
    every other service and the registry alone, and a second call changes
    nothing more. *)
Theorem ClearServiceHistory_purge sid r :
  let r' := ClearServiceHistory sid r in
  (historyByService r !! sid = None -> r' = r)
  /\ (forall tuples k,
        historyByService r !! sid = Some tuples ->
        history r' !! k = if decide (k ∈ tuples) then None else history r !! k)
  /\ historyByService r' !! sid = None
  /\ (forall sid', sid' <> sid ->
        historyByService r' !! sid' = historyByService r !! sid')
  /\ delays r' = delays r
  /\ ClearServiceHistory sid r' = r'.
Proof.
  cbv zeta. split.
  { intros Hs. unfold ClearServiceHistory. rewrite Hs. reflexivity. }
  split; [intros tuples k; apply ClearServiceHistory_lookup|].
  assert (Hnone : historyByService (ClearServiceHistory sid r) !! sid = None).
  { unfold ClearServiceHistory.
    destruct (historyByService r !! sid) eqn:Hs; [|exact Hs].
    simpl. apply lookup_delete_eq. }
  split; [exact Hnone|]. split.
  { intros sid' Hne. unfold ClearServiceHistory.
    destruct (historyByService r !! sid); [|reflexivity].
    simpl. apply lookup_delete_ne. congruence. }
  split.
  { unfold ClearServiceHistory.
    destruct (historyByService r !! sid); reflexivity. }
  unfold ClearServiceHistory at 1. rewrite Hnone. reflexivity.
Qed.

Lemma DelayStart_index ctx service oldTask newTaskID delay waitStop r rt :
  historyByService
    (Call_sup (DelayStart ctx service oldTask newTaskID delay waitStop r rt))
  = historyByService r.
Proof.
  unfold DelayStart, register. destruct (delays r !! newTaskID); reflexivity.
Qed.

Lemma ledger_ok_Restart ctx (tx : Tx) service t newID now now' r rt :
  ledger_ok r ->
  ledger_ok (Call_sup (Restart ctx tx service t newID now now' r rt).2).
Proof.
  intros Hok. unfold Restart.
  destruct (UpdateTask tx _) as [[err|] tx1]; simpl; [exact Hok|].
  pose proof (ledger_ok_shouldRestart now
                (set_DesiredState TaskStateShutdown t) service r Hok) as Hok1.
  destruct (shouldRestart now _ service r) as [[|] r1]; simpl in *;
    [|exact Hok1].
  match goal with
  | |- context [match ?b with Some _ => _ | None => (Unsupported, _, _) end] =>
      destruct b as [built|]; simpl; [|exact Hok1]
  end.
  destruct (CreateTask tx1 _) as [[err|] tx3]; simpl; [exact Hok1|].
  match goal with
  | |- context [Call_map _ ?c] =>
      replace (Call_sup (Call_map (fun _ : nat => ()) c)) with (Call_sup c)
        by (destruct c; reflexivity)
  end.
  eapply ledger_ok_same;
    [apply DelayStart_history | apply DelayStart_index|].
  apply ledger_ok_record, Hok1.
Qed.

(** X2: the index by service and the history agree in a new supervisor,
    and every operation keeps them so: [shouldRestart],
    [recordRestartHistory], [ClearServiceHistory], [Restart] whatever it
    returns, and [DelayStart]. *)
Theorem ledger_ok_preserved :
  ledger_ok NewRestartSupervisor
  /\ forall r,
       ledger_ok r ->
       (forall now t service, ledger_ok (shouldRestart now t service r).2)
       /\ (forall now restartTask service,
             ledger_ok (recordRestartHistory now restartTask service r))
       /\ (forall sid, ledger_ok (ClearServiceHistory sid r))
       /\ (forall ctx (tx : Tx) service t newID now now' rt,
             ledger_ok
               (Call_sup (Restart ctx tx service t newID now now' r rt).2))
       /\ (forall ctx service oldTask newTaskID delay waitStop rt,
             ledger_ok
               (Call_sup (DelayStart ctx service oldTask newTaskID delay
                            waitStop r rt))).
Proof.
  split.
  { split.
    - intros k [info Hk]. simpl in Hk. rewrite lookup_empty in Hk.
      discriminate.
    - intros sid s k Hs. simpl in Hs. rewrite lookup_empty in Hs.
      discriminate. }
  intros r Hok.
  split; [intros; apply ledger_ok_shouldRestart, Hok|].
  split; [intros; apply ledger_ok_record, Hok|].
  split; [intros; apply ledger_ok_clear, Hok|].
  split; [intros; apply ledger_ok_Restart, Hok|].
  intros. eapply ledger_ok_same;
    [apply DelayStart_history | apply DelayStart_index | exact Hok].
Qed.

(** X3: when the index agrees with the history, [ClearServiceHistory]
    leaves no entry whose key is of the service, whether the key was indexed
    or not, and keeps the entry of every key of another service. *)
Theorem ClearServiceHistory_forgets_service sid r :
  ledger_ok r ->
  forall k,
    history (ClearServiceHistory sid r) !! k
    = if decide (serviceID k = sid) then None else history r !! k.
Proof.
  intros Hok k. destruct (ClearServiceHistory_forgets sid r Hok) as [Hg Hk].
  case_decide; auto.
Qed.

(** X4: after [ClearServiceHistory] for the service of a task, the history
    no longer limits the restart of that task: when the index agrees with
    the history and the restart condition permits, [shouldRestart] allows
    the restart and changes nothing. *)
Theorem ClearServiceHistory_resets_budget now t service r :
  ledger_ok r ->
  permits service t = true ->
  shouldRestart now t service (ClearServiceHistory (ServiceID t) r)
  = (true, ClearServiceHistory (ServiceID t) r).
Proof.
  intros Hok Hp. rewrite shouldRestart_permitted by assumption.
  destruct (ClearServiceHistory_forgets (ServiceID t) r Hok) as [Hg _].
  rewrite (Hg (taskTuple t service)) by reflexivity.
  destruct (Spec_Restart service); [|reflexivity].
  case_bool_decide; reflexivity.
Qed.

(** X5: [shouldRestart] refuses only for a cause: either the restart
    condition does not permit the restart, or the policy has a limit
    max_attempts > 0 that the entry of the task's instance tuple has
    reached: with window = 0 its counter of restarts, otherwise the number
    of its window events left after pruning.  A refusal with window = 0 or
    by the condition changes nothing. *)
Theorem shouldRestart_refusal_cause now t service r r' :
  shouldRestart now t service r = (false, r') ->
  (permits service t = false /\ r' = r)
  \/ exists policy info,
       Spec_Restart service = Some policy
       /\ (0 < MaxAttempts policy)%N
       /\ history r !! taskTuple t service = Some info
       /\ ((Window policy = 0
            /\ (MaxAttempts policy <= totalRestarts info)%N
            /\ r' = r)
           \/ (Window policy <> 0
               /\ exists l,
                    restartedInstances info = Some l
                    /\ (MaxAttempts policy
                        <= N.of_nat
                             (length
                                (pruneFront
                                   (Time_Add now (Duration_neg (Window policy)))
                                   l)))%N)).
Proof.
  destruct (permits service t) eqn:Hp.
  2:{ rewrite shouldRestart_refused by assumption. intros [= <-]. auto. }
  rewrite shouldRestart_permitted by assumption. intros Heq. right.
  destruct (Spec_Restart service) as [policy|]; [|discriminate].
  case_bool_decide as Hmax; [discriminate|].
  destruct (history r !! taskTuple t service) as [info|]; [|discriminate].
  exists policy, info. split; [reflexivity|]. split; [lia|].
  split; [reflexivity|].
  case_bool_decide as Hw.
  - injection Heq as Hlt <-. left. apply N.ltb_ge in Hlt. auto.
  - destruct (restartedInstances info) as [l|]; [|discriminate].
    cbv zeta in Heq. injection Heq as Hlt _. right. split; [exact Hw|].
    exists l. split; [reflexivity|]. apply N.ltb_ge. exact Hlt.
Qed.

(** X6: waiting never turns an allowed restart into a refused one: if
    [shouldRestart] allows the restart at some time, it allows it, from the
    same state, at any later time. *)
Theorem shouldRestart_later_clock now now' t service r :
  now <= now' ->
  (shouldRestart now t service r).1 = true ->
  (shouldRestart now' t service r).1 = true.
Proof.
  intros Hle. destruct (permits service t) eqn:Hp.
  2:{ rewrite !shouldRestart_refused by assumption. auto. }
  rewrite !shouldRestart_permitted by assumption.
  destruct (Spec_Restart service) as [policy|]; [|auto].
  case_bool_decide; [auto|].
  destruct (history r !! taskTuple t service) as [info|]; [|auto].
  case_bool_decide; [auto|].
  destruct (restartedInstances info) as [l|]; [|auto].
  cbv zeta. simpl. rewrite !N.ltb_lt. intros Hlt.
  rewrite <- (pruneFront_later (Time_Add now (Duration_neg (Window policy)))
                (Time_Add now' (Duration_neg (Window policy))))
    by (unfold Time_Add; lia).
  pose proof (pruneFront_length
                (Time_Add now' (Duration_neg (Window policy)))
                (pruneFront (Time_Add now (Duration_neg (Window policy))) l)).
  lia.
Qed.

Lemma chronological_app l e :
  chronological l ->
  Forall (fun e' => timestamp e' <= timestamp e) l ->
  chronological (l ++ [e]).
Proof.
  induction l as [|a l IH]; simpl; [auto|].
  intros [Hall Hch] Hle. apply Forall_cons in Hle as [Ha Hle].
  split; [|apply IH; assumption].
  apply Forall_app. split; [exact Hall|]. constructor; [exact Ha|constructor].
Qed.

Lemma chronological_pruneFront lookback l :
  chronological l -> chronological (pruneFront lookback l).
Proof.
  induction l as [|e l IH]; simpl; [auto|].
  intros [Hall Hch]. destruct (Time_After (timestamp e) lookback).
  - split; assumption.
  - apply IH, Hch.
Qed.

(** X7: on window events in the order of their timestamps, the pruning of
    [shouldRestart] keeps exactly the events strictly after the threshold,
    in their order. *)
Theorem pruneFront_chronological lookback l :
  chronological l ->
  pruneFront lookback l = filter (fun e => lookback < timestamp e) l
  /\ Forall (fun e => lookback < timestamp e) (pruneFront lookback l)
  /\ chronological (pruneFront lookback l).
Proof.
  intros Hch. split; [apply pruneFront_chrono, Hch|].
  split; [|apply chronological_pruneFront, Hch].
  rewrite (pruneFront_chrono _ _ Hch). apply Forall_forall.
  intros e He. apply list_elem_of_filter in He as [He _]. exact He.
Qed.

(** X8: the window events of every key stay in the order of their
    timestamps: [shouldRestart] keeps them so, and so does
    [recordRestartHistory] when the clock it reads is not before the events
    already recorded for the key. *)
Theorem window_events_chronological r :
  (forall k, chronological (window_events r k)) ->
  (forall now t service k,
     chronological (window_events (shouldRestart now t service r).2 k))
  /\ (forall now restartTask service k,
        Forall (fun e => timestamp e <= now)
          (window_events r (recordTuple restartTask)) ->
        chronological
          (window_events (recordRestartHistory now restartTask service r) k)).
Proof.
  intros Hch. split.
  - intros now t service k.
    destruct (shouldRestart_history now t service r k)
      as [_ [->|(p & _ & _ & ->)]]; [apply Hch|].
    apply chronological_pruneFront, Hch.
  - intros now restartTask service k Hle.
    destruct (Spec_Restart service) as [policy|] eqn:Hpol.
    2:{ unfold recordRestartHistory. rewrite Hpol. apply Hch. }
    destruct (decide (MaxAttempts policy = 0%N)) as [Hz|Hnz].
    { unfold recordRestartHistory.
      rewrite Hpol, bool_decide_eq_true_2 by assumption. apply Hch. }
    destruct (recordRestartHistory_effect now restartTask service policy r
                Hpol Hnz) as (_ & _ & _ & Hw & Hw0 & Hother & _).
    destruct (decide (k = recordTuple restartTask)) as [->|Hne].
    + destruct (decide (Window policy = 0)) as [Hz|Hnzw].
      * rewrite (Hw0 Hz). apply Hch.
      * rewrite (Hw Hnzw). apply chronological_app; [apply Hch | exact Hle].
    + unfold window_events. rewrite (Hother k Hne). apply Hch.
Qed.

End LedgerProperties.

(** ** Bounds on the restarts [Restart] creates *)

Section RestartBounds.
Context {imports : Imports} {new_task : NewTask}.
Context {Tx Err : Type} {st : Store Tx Err}.

(** A call of [Restart] that creates its replacement was allowed by
    [shouldRestart]. *)
Lemma Restart_restarted_allowed ctx (tx : Tx) service t newID now now' r rt
    restartTask d w tx2 c :
  Restart ctx tx service t newID now now' r rt
  = (Restarted restartTask d w, tx2, c) ->
  (shouldRestart now (set_DesiredState TaskStateShutdown t) service r).1 = true.
Proof.
  unfold Restart.
  destruct (UpdateTask tx _) as [[err|] tx1]; [discriminate|]. simpl.
  destruct (shouldRestart now _ service r) as [[|] r1]; simpl;
    [reflexivity | discriminate].
Qed.

Lemma RestartAll_snoc service init c :
  forall r rt tasks r' rt',
    RestartAll (Tx := Tx) service (init ++ [c]) r rt = Some (tasks, r', rt') ->
    exists tasks0 r0 rt0 task d w tx2 a,
      RestartAll service init r rt = Some (tasks0, r0, rt0)
      /\ Restart (call_ctx c) (call_tx c) service (call_task c) (call_newID c)
           (call_now c) (call_now' c) r0 rt0
         = (Restarted task d w, tx2, Returns a r' rt')
      /\ tasks = tasks0 ++ [task].
Proof.
  induction init as [|c0 init IH]; intros r rt tasks r' rt'; simpl.
  - destruct (Restart _ _ _ _ _ _ _ r rt) as [[o tx2] cl] eqn:Hcall.
    destruct o as [| | | |task d w]; try discriminate.
    destruct cl as [a r1 rt1|]; [|discriminate].
    intros [= <- <- <-]. eexists _, _, _, _, _, _, _, _.
    split; [reflexivity|]. split; [exact Hcall | reflexivity].
  - destruct (Restart _ _ _ _ _ _ _ r rt) as [[o tx2] cl].
    destruct o as [| | | |task d w]; try discriminate.
    destruct cl as [a r1 rt1|]; [|discriminate].
    destruct (RestartAll service (init ++ [c]) r1 rt1)
      as [[[tasks1 r2] rt2]|] eqn:Hrest; [|discriminate].
    intros [= <- <- <-].
    destruct (IH _ _ _ _ _ Hrest)
      as (tasks0 & r0 & rt0 & task' & d' & w' & tx' & a' & H0 & H1 & ->).
    rewrite H0. eexists _, _, _, _, _, _, _, _.
    split; [reflexivity|]. split; [exact H1 | reflexivity].
Qed.

Lemma window_events_some r k l :
  window_events r k = l ->
  l <> [] ->
  exists info,
    history r !! k = Some info /\ restartedInstances info = Some l.
Proof.
  unfold window_events. destruct (history r !! k) as [info|]; [|congruence].
  destruct (restartedInstances info) as [l'|] eqn:Hl; simpl; [|congruence].
  intros -> _. exists info. auto.
Qed.

(** One restart under a lifetime limit. *)
Lemma Restart_lifetime_step ctx (tx : Tx) service policy t newID now now' r rt
    restartTask d w tx2 a r1 rt1 :
  Spec_Restart service = Some policy ->
  Window policy = 0 ->
  MaxAttempts policy <> 0%N ->
  (MaxAttempts policy < 2 ^ 64)%N ->
  Restart ctx tx service t newID now now' r rt
  = (Restarted restartTask d w, tx2, Returns a r1 rt1) ->
  recordTuple restartTask = taskTuple t service ->
  total_restarts r1 (taskTuple t service)
  = (total_restarts r (taskTuple t service) + 1)%N
  /\ (total_restarts r (taskTuple t service) < MaxAttempts policy)%N.
Proof.
  intros Hpol Hw Hmax Hrange Hcall Hkey.
  pose proof (Restart_restarted_allowed _ _ _ _ _ _ _ _ _ _ _ _ _ _ Hcall)
    as Hyes.
  pose proof (Restart_restarted_history _ _ _ _ _ _ _ _ _ _ _ _ _ _ Hcall)
    as Hh. simpl in Hh.
  set (t' := set_DesiredState TaskStateShutdown t) in *.
  set (k := taskTuple t service) in *.
  assert (Hlt : (total_restarts r k < MaxAttempts policy)%N).
  { destruct (permits service t') eqn:Hp.
    2:{ rewrite shouldRestart_refused in Hyes by assumption. discriminate. }
    rewrite shouldRestart_permitted, Hpol in Hyes by assumption.
    rewrite bool_decide_eq_false_2 in Hyes by assumption.
    change (taskTuple t' service) with k in Hyes.
    unfold total_restarts.
    destruct (history r !! k) as [info|]; [|lia].
    rewrite bool_decide_eq_true_2 in Hyes by assumption.
    simpl in Hyes. apply N.ltb_lt. exact Hyes. }
  split; [|exact Hlt].
  destruct (recordRestartHistory_effect now' restartTask service policy
              (shouldRestart now t' service r).2 Hpol Hmax)
    as (_ & Htot & _).
  rewrite Hkey in Htot.
  unfold total_restarts at 1. rewrite Hh.
  fold (total_restarts
          (recordRestartHistory now' restartTask service
             (shouldRestart now t' service r).2) k).
  rewrite Htot, (proj1 (shouldRestart_history now t' service r k)).
  unfold uint64_incr. apply N.mod_small. lia.
Qed.

(** X9: a lifetime limit holds: for a policy with window = 0 and
    0 < max_attempts < 2^64, however many times [Restart] is called for the
    tasks of one instance tuple, the restarts it creates, added to the
    restarts the history already counts for the tuple, never exceed
    max_attempts. *)
Theorem Restart_lifetime_bound service policy calls r rt tasks r' rt' k :
  Spec_Restart service = Some policy ->
  Window policy = 0 ->
  (0 < MaxAttempts policy < 2 ^ 64)%N ->
  RestartAll (Tx := Tx) service calls r rt = Some (tasks, r', rt') ->
  Forall (fun task => recordTuple task = k) tasks ->
  Forall (fun c => taskTuple (call_task c) service = k) calls ->
  calls <> [] ->
  (total_restarts r k + N.of_nat (length calls) <= MaxAttempts policy)%N
  /\ total_restarts r' k = (total_restarts r k + N.of_nat (length calls))%N.
Proof.
  intros Hpol Hw [Hpos Hrange].
  revert r rt tasks r' rt'.
  induction calls as [|c calls IH]; intros r rt tasks r' rt' Hrun Hk Hc Hne;
    [congruence|].
  simpl in Hrun.
  destruct (Restart _ _ _ _ _ _ _ r rt) as [[o tx2] cl] eqn:Hcall.
  destruct o as [| | | |restartTask d w]; try discriminate.
  destruct cl as [a r1 rt1|]; [|discriminate].
  destruct (RestartAll service calls r1 rt1) as [[[tasks1 r2] rt2]|] eqn:Hrest;
    [|discriminate].
  injection Hrun as <- <- <-.
  apply Forall_cons in Hk as [Hk1 Hk].
  apply Forall_cons in Hc as [Hc1 Hc].
  destruct (Restart_lifetime_step _ _ _ policy _ _ _ _ _ _ _ _ _ _ _ _ _
              Hpol Hw ltac:(lia) Hrange Hcall ltac:(congruence))
    as [Hstep Hlt].
  rewrite Hc1 in Hstep, Hlt.
  destruct calls as [|c' calls].
  - simpl in Hrest. injection Hrest as <- <- <-. simpl. lia.
  - destruct (IH _ _ _ _ _ Hrest Hk Hc ltac:(discriminate)) as [IHle IHeq].
    rewrite IHeq, Hstep. simpl length in *. lia.
Qed.

(** X10: a limit in a window holds: for a policy with window not 0 and
    max_attempts > 0, from a history without entry for the instance tuple,
    when every call of [Restart] comes before any recorded restart leaves
    the window, at most max_attempts calls create a replacement. *)
Theorem Restart_window_bound service policy calls r rt tasks r' rt' k :
  Spec_Restart service = Some policy ->
  Window policy <> 0 ->
  (0 < MaxAttempts policy)%N ->
  history r !! k = None ->
  RestartAll (Tx := Tx) service calls r rt = Some (tasks, r', rt') ->
  Forall (fun task => recordTuple task = k) tasks ->
  Forall (fun c => taskTuple (call_task c) service = k) calls ->
  (forall c c', c ∈ calls -> c' ∈ calls ->
     Time_Add (call_now c) (Duration_neg (Window policy)) < call_now' c') ->
  (N.of_nat (length calls) <= MaxAttempts policy)%N.
Proof.
  intros Hpol Hw Hpos Hnone.
  induction calls as [|c init _] using rev_ind; intros Hrun Hk Hc Hin;
    [simpl; lia|].
  destruct (RestartAll_snoc _ _ _ _ _ _ _ _ Hrun)
    as (tasks0 & r0 & rt0 & task & d & w & tx2 & a & Hinit & Hlast & ->).
  apply Forall_app in Hk as [Hk0 _]. apply Forall_app in Hc as [_ Hc1].
  apply Forall_inv in Hc1.
  destruct (RestartAll_entry service policy init Hpol ltac:(lia)
              _ _ _ _ _ _ Hinit Hk0) as [_ Hev].
  destruct (Hev Hw) as [_ Heq]. clear Hev.
  assert (He0 : window_events r k = []).
  { unfold window_events. rewrite Hnone. reflexivity. }
  rewrite He0 in Heq. simpl in Heq.
  assert (Hevents : window_events r0 k
                    = (fun c => {| timestamp := call_now' c |}) <$> init).
  { apply Heq. intros c0 e Hc0 [He|(c' & Hc' & ->)].
    - apply elem_of_nil in He. contradiction.
    - apply Hin; apply elem_of_app; auto. }
  rewrite length_app. simpl.
  destruct init as [|c1 init].
  { simpl. lia. }
  pose proof (Restart_restarted_allowed _ _ _ _ _ _ _ _ _ _ _ _ _ _ Hlast)
    as Hyes.
  set (t' := set_DesiredState TaskStateShutdown (call_task c)) in *.
  destruct (permits service t') eqn:Hp.
  2:{ rewrite shouldRestart_refused in Hyes by assumption. discriminate. }
  rewrite shouldRestart_permitted, Hpol in Hyes by assumption.
  rewrite bool_decide_eq_false_2 in Hyes by lia.
  change (taskTuple t' service) with (taskTuple (call_task c) service) in Hyes.
  rewrite Hc1 in Hyes.
  destruct (window_events_some _ _ _ Hevents ltac:(discriminate))
    as (info & Hinfo & Hl).
  rewrite Hinfo, bool_decide_eq_false_2, Hl in Hyes by assumption.
  cbv zeta in Hyes. cbn [fst] in Hyes.
  rewrite pruneFront_fixed in Hyes.
  - apply N.ltb_lt in Hyes. rewrite length_fmap in Hyes. simpl in *. lia.
  - intros e [= <-]. simpl.
    apply Hin; [apply elem_of_app; right; apply list_elem_of_singleton;
                reflexivity|].
    apply elem_of_app. left. apply elem_of_cons. auto.
Qed.

(** X11: unless it creates the replacement task, [Restart] records no
    restart and starts no delay: it returns at once with the goroutines and
    channels, the registry, the index by service and every counter of
    restarts as they were.  When it is [CreateTask] that fails, the error
    returned is the one of [CreateTask], called on the transaction the
    update of the old task left. *)
Theorem Restart_without_replacement ctx (tx : Tx) service t newID now now'
    r rt :
  let out := Restart ctx tx service t newID now now' r rt in
  (forall task d w, out.1.1 <> Restarted task d w) ->
  (exists r1,
      out.2 = Returns () r1 rt
      /\ delays r1 = delays r
      /\ historyByService r1 = historyByService r
      /\ forall k, total_restarts r1 k = total_restarts r k)
  /\ (forall err task,
        out.1.1 = CreateFailed err task ->
        returned out.1.1 = Some err
        /\ DesiredState task = TaskStateReady
        /\ CreateTask
             (UpdateTask tx (set_DesiredState TaskStateShutdown t)).2 task
           = (Some err, out.1.2)).
Proof.
  cbv zeta. unfold Restart.
  destruct (UpdateTask tx _) as [[err|] tx1]; simpl.
  { intros _. split; [eauto 10|]. discriminate. }
  pose proof (shouldRestart_delays now
                (set_DesiredState TaskStateShutdown t) service r) as [Hd Hi].
  pose proof (fun k => proj1 (shouldRestart_history now
                (set_DesiredState TaskStateShutdown t) service r k)) as Ht.
  destruct (shouldRestart now _ service r) as [[|] r1]; simpl in *.
  2:{ intros _. split; [eauto 10|]. discriminate. }
  match goal with
  | |- context [match ?b with Some _ => _ | None => (Unsupported, _, _) end] =>
      destruct b as [built|]; simpl
  end.
  2:{ intros _. split; [eauto 10|]. discriminate. }
  destruct (CreateTask tx1 _) as [[err|] tx3] eqn:Hcreate; simpl.
  - intros _. split; [eauto 10|].
    intros err' task [= <- <-]. rewrite Hcreate. auto.
  - intros Hno. exfalso. eapply Hno. reflexivity.
Qed.

End RestartBounds.

(** ** The registry and the delay loops *)

Section RuntimeFacts.
Context {imports : Imports} {new_task : NewTask}.
Context {Tx Err : Type} {st : Store Tx Err}.

Lemma runtime_ok_fields r rt r' rt' :
  delays r' = delays r ->
  loops rt' = loops rt ->
  closed rt' = closed rt ->
  (unused rt <= unused rt')%nat ->
  runtime_ok r rt -> runtime_ok r' rt'.
Proof.
  intros Hd Hl Hc Hu (Ha & Hb & Hcl). unfold runtime_ok.
  rewrite Hd, Hl, Hc. split; [exact Ha|]. split.
  - intros ch l Hch. destruct (Hb ch l Hch) as (Hlt & Hreg & Hend).
    split; [lia|]. split; assumption.
  - intros ch Hch. specialize (Hcl ch Hch). lia.
Qed.

Lemma loop_live_set_phase p l :
  loop_live (set_phase p l) <-> forall committed, p <> Ended committed.
Proof. reflexivity. Qed.

Lemma loop_live_dec l : loop_live l \/ exists committed, loop_phase l = Ended committed.
Proof.
  unfold loop_live. destruct (loop_phase l); eauto; left; discriminate.
Qed.

(** A new handle and its loop, under a free task identifier. *)
Lemma runtime_ok_install r rt newTaskID l :
  runtime_ok r rt ->
  delays r !! newTaskID = None ->
  loop_newTaskID l = newTaskID ->
  loop_ctx l = WithCancel Background (unused rt) ->
  loop_live l ->
  runtime_ok
    (set_delays (<[newTaskID := {| cancel := unused rt; doneCh := unused rt |}]>
                   (delays r)) r)
    {| fired := fired rt; closed := closed rt;
       loops := <[unused rt := l]> (loops rt); unused := S (unused rt) |}.
Proof.
  intros (Ha & Hb & Hcl) Hfree Hid Hctx Hlive.
  assert (Hnew : loops rt !! unused rt = None).
  { destruct (loops rt !! unused rt) as [l0|] eqn:Hl0; [|reflexivity].
    destruct (Hb _ _ Hl0) as (Hlt & _). lia. }
  split; [|split]; simpl.
  - intros id d Hd. destruct (decide (id = newTaskID)) as [->|Hne].
    + rewrite lookup_insert_eq in Hd. injection Hd as <-. simpl.
      exists l. rewrite lookup_insert_eq. repeat split; auto.
      intros Hin. specialize (Hcl _ Hin). lia.
    + rewrite lookup_insert_ne in Hd by congruence.
      destruct (Ha id d Hd) as (l0 & Hl0 & H1 & H2 & H3 & H4).
      exists l0. rewrite lookup_insert_ne; [auto|].
      intros Heq. rewrite <- Heq, Hnew in Hl0. discriminate.
  - intros ch l0 Hch. destruct (decide (ch = unused rt)) as [->|Hne].
    + rewrite lookup_insert_eq in Hch. injection Hch as <-.
      split; [lia|]. split; [|contradiction].
      intros _. rewrite Hid, lookup_insert_eq. eauto.
    + rewrite lookup_insert_ne in Hch by congruence.
      destruct (Hb ch l0 Hch) as (Hlt & Hreg & Hend).
      split; [lia|]. split; [|exact Hend].
      intros Hl0. destruct (Hreg Hl0) as (d & Hd & Hdc).
      exists d. split; [|exact Hdc]. rewrite lookup_insert_ne; [exact Hd|].
      intros Heq. rewrite <- Heq, Hfree in Hd. discriminate.
  - intros ch Hch. specialize (Hcl ch Hch). lia.
Qed.

(** A delay loop that goes on to its next [select]. *)
Lemma runtime_ok_park r rt ch l p :
  runtime_ok r rt ->
  loops rt !! ch = Some l ->
  loop_live l ->
  (forall committed, p <> Ended committed) ->
  runtime_ok r
    {| fired := fired rt; closed := closed rt;
       loops := <[ch := set_phase p l]> (loops rt); unused := unused rt |}.
Proof.
  intros (Ha & Hb & Hcl) Hl Hlive Hp. split; [|split]; simpl.
  - intros id d Hd. destruct (Ha id d Hd) as (l0 & Hl0 & H1 & H2 & H3 & H4).
    destruct (decide (doneCh d = ch)) as [He|Hne].
    + rewrite He in *. rewrite Hl in Hl0. injection Hl0 as <-.
      exists (set_phase p l). rewrite lookup_insert_eq. repeat split; auto.
    + exists l0. rewrite lookup_insert_ne by congruence. auto.
  - intros ch0 l0 Hch0. destruct (decide (ch0 = ch)) as [->|Hne].
    + rewrite lookup_insert_eq in Hch0. injection Hch0 as <-.
      destruct (Hb ch l Hl) as (Hlt & Hreg & _).
      split; [exact Hlt|]. split; [intros _; apply Hreg, Hlive|].
      intros Hn. exfalso. apply Hn. exact Hp.
    + rewrite lookup_insert_ne in Hch0 by congruence. apply Hb, Hch0.
  - exact Hcl.
Qed.

(** A delay loop that ends. *)
Lemma runtime_ok_teardown r rt ch l committed :
  runtime_ok r rt ->
  loops rt !! ch = Some l ->
  loop_live l ->
  runtime_ok
    (set_delays (delete (loop_newTaskID l) (delays r)) r)
    {| fired := fired rt; closed := closed rt ∪ {[ch]};
       loops := <[ch := set_phase (Ended committed) l]> (loops rt);
       unused := unused rt |}.
Proof.
  intros (Ha & Hb & Hcl) Hl Hlive.
  destruct (Hb ch l Hl) as (Hlt & Hreg & _).
  destruct (Hreg Hlive) as (d0 & Hd0 & Hdc0).
  split; [|split]; simpl.
  - intros id d Hd.
    destruct (decide (id = loop_newTaskID l)) as [->|Hne].
    { rewrite lookup_delete_eq in Hd. discriminate. }
    rewrite lookup_delete_ne in Hd by congruence.
    destruct (Ha id d Hd) as (l0 & Hl0 & H1 & H2 & H3 & H4).
    assert (Hch : doneCh d <> ch).
    { intros He. rewrite He, Hl in Hl0. injection Hl0 as <-. congruence. }
    exists l0. rewrite lookup_insert_ne by congruence.
    repeat split; auto.
    rewrite elem_of_union, elem_of_singleton. tauto.
  - intros ch0 l0 Hch0. destruct (decide (ch0 = ch)) as [->|Hne].
    + rewrite lookup_insert_eq in Hch0. injection Hch0 as <-.
      split; [exact Hlt|]. split.
      * intros Hn. exfalso. exact (Hn committed eq_refl).
      * intros _. apply elem_of_union. right. apply elem_of_singleton.
        reflexivity.
    + rewrite lookup_insert_ne in Hch0 by congruence.
      destruct (Hb ch0 l0 Hch0) as (Hlt0 & Hreg0 & Hend0).
      split; [exact Hlt0|]. split.
      * intros Hl0. destruct (Hreg0 Hl0) as (d & Hd & Hdc).
        exists d. split; [|exact Hdc]. rewrite lookup_delete_ne; [exact Hd|].
        intros Heq. rewrite <- Heq, Hd0 in Hd. injection Hd as <-. congruence.
      * intros Hn. apply elem_of_union. left. apply Hend0, Hn.
  - intros ch0 Hch0. apply elem_of_union in Hch0 as [Hch0|Hch0].
    + apply Hcl, Hch0.
    + apply elem_of_singleton in Hch0. subst ch0. exact Hlt.
Qed.

(** What one step of a delay loop does. *)
Lemma loop_step_inv ch ev (tx : Tx) r rt tx' r' rt' :
  loop_step ch ev (tx, r, rt) = Some (tx', r', rt') ->
  exists l,
    loops rt !! ch = Some l
    /\ loop_live l
    /\ fired rt' = fired rt
    /\ unused rt' = unused rt
    /\ ((exists p,
            (p = Delaying \/ p = WaitingStop)
            /\ tx' = tx /\ r' = r
            /\ rt' = {| fired := fired rt; closed := closed rt;
                        loops := <[ch := set_phase p l]> (loops rt);
                        unused := unused rt |})
        \/ (exists committed : bool,
              tx' = (if committed then (StartNow tx (loop_newTaskID l)).2
                     else tx)
              /\ r' = set_delays (delete (loop_newTaskID l) (delays r)) r
              /\ rt' = {| fired := fired rt; closed := closed rt ∪ {[ch]};
                          loops := <[ch := set_phase (Ended committed) l]>
                                     (loops rt);
                          unused := unused rt |}
              /\ (committed = false ->
                  ctx_done (fired rt) (loop_ctx l) = true
                  /\ ev = CtxDone))).
Proof.
  unfold loop_step. simpl.
  destruct (loops rt !! ch) as [l|]; [|discriminate].
  intros Hstep. exists l. split; [reflexivity|].
  assert (Hlive : loop_live l).
  { intros b Hb. rewrite Hb in Hstep. discriminate. }
  split; [exact Hlive|].
  destruct (loop_phase l), ev; try discriminate;
    unfold afterDelay, commit, teardown, park in Hstep;
    repeat (case_bool_decide || case_match); try discriminate;
    injection Hstep as <- <- <-; simpl;
    (split; [reflexivity|]); (split; [reflexivity|]);
    first [ left; exists Delaying; split; [auto|];
            split; [reflexivity|]; split; reflexivity
          | left; exists WaitingStop; split; [auto|];
            split; [reflexivity|]; split; reflexivity
          | right; exists true; split; [reflexivity|];
            split; [reflexivity|]; split; [reflexivity|]; discriminate
          | right; exists false; split; [reflexivity|];
            split; [reflexivity|]; split; [reflexivity|]; auto ].
Qed.

Lemma runtime_ok_loop_step ch ev (tx : Tx) r rt tx' r' rt' :
  runtime_ok r rt ->
  loop_step ch ev (tx, r, rt) = Some (tx', r', rt') ->
  runtime_ok r' rt'.
Proof.
  intros Hok Hstep.
  destruct (loop_step_inv _ _ _ _ _ _ _ _ Hstep)
    as (l & Hl & Hlive & _ & _ & [(p & Hp & _ & -> & ->)
                                 |(b & _ & -> & -> & _)]).
  - apply runtime_ok_park; auto. destruct Hp as [->| ->]; discriminate.
  - apply runtime_ok_teardown; auto.
Qed.

Lemma runtime_ok_DelayStart ctx service oldTask newTaskID delay waitStop r rt :
  runtime_ok r rt ->
  runtime_ok
    (Call_sup (DelayStart ctx service oldTask newTaskID delay waitStop r rt))
    (Call_rt (DelayStart ctx service oldTask newTaskID delay waitStop r rt)).
Proof.
  intros Hok. unfold DelayStart, register.
  destruct (delays r !! newTaskID) as [old|] eqn:Hold; simpl.
  - eapply runtime_ok_fields; [..|exact Hok]; simpl; auto.
  - apply (runtime_ok_install r rt newTaskID);
      [exact Hok | exact Hold | reflexivity | reflexivity
      | intros b; discriminate].
Qed.


End RuntimeFacts.

Section RuntimeProperties.
Context {imports : Imports} {new_task : NewTask}.
Context {Tx Err : Type} {st : Store Tx Err}.






(** A step of a delay loop that waits for the old task without a
    subscription. *)
Lemma loop_step_unsubscribed ch ev (tx tx' : Tx) r rt r' rt' l :
  loops rt !! ch = Some l ->
  loop_waitStop l = true ->
  loop_watch l = None ->
  loop_step ch ev (tx, r, rt) = Some (tx', r', rt') ->
  tx' = tx
  /\ fired rt' = fired rt
  /\ exists p,
       loops rt' !! ch = Some (set_phase p l)
       /\ (p = Delaying \/ p = WaitingStop
           \/ (p = Ended false /\ ctx_done (fired rt) (loop_ctx l) = true)).
Proof.
  intros Hl Hws Hwatch. unfold loop_step. simpl. rewrite Hl.
  unfold oldTaskTimeout, afterDelay, commit, teardown, park.
  rewrite Hws, Hwatch.
  destruct (loop_phase l), ev; try discriminate;
    repeat (case_bool_decide || case_match); try discriminate;
    intros [= <- <- <-]; simpl; rewrite lookup_insert_eq;
    (split; [reflexivity|]); (split; [reflexivity|]);
    eexists; (split; [reflexivity|]); auto.
Qed.

Lemma loop_run_unsubscribed ch k evs :
  forall (tx : Tx) r rt l tx2 r2 rt2,
    loops rt !! ch = Some l ->
    loop_waitStop l = true ->
    loop_watch l = None ->
    loop_ctx l = WithCancel Background k ->
    loop_live l \/ (loop_phase l = Ended false /\ k ∈ fired rt) ->
    loop_run ch evs (tx, r, rt) = Some (tx2, r2, rt2) ->
    tx2 = tx
    /\ exists l2,
         loops rt2 !! ch = Some l2
         /\ (loop_live l2 \/ (loop_phase l2 = Ended false /\ k ∈ fired rt2)).
Proof.
  induction evs as [|ev evs IH]; intros tx r rt l tx2 r2 rt2 Hl Hws Hw Hctx Hst;
    simpl.
  { intros [= <- <- <-]. eauto. }
  destruct (loop_step ch ev (tx, r, rt)) as [[[tx1 r1] rt1]|] eqn:Hstep;
    [|discriminate].
  intros Hrun.
  destruct (loop_step_unsubscribed _ _ _ _ _ _ _ _ _ Hl Hws Hw Hstep)
    as (-> & Hf & p & Hl1 & Hp).
  eapply (IH _ _ _ (set_phase p l)); [exact Hl1 | exact Hws | exact Hw
                                     | exact Hctx | | exact Hrun].
  destruct Hp as [-> | [-> | [-> Hdone]]].
  - left. intros b. discriminate.
  - left. intros b. discriminate.
  - right. split; [reflexivity|]. rewrite Hf. rewrite Hctx in Hdone.
    simpl in Hdone. rewrite orb_false_r in Hdone.
    apply bool_decide_eq_true in Hdone. exact Hdone.
Qed.

(** X16: a delay started with [waitStop] and no old task subscribes to
    nothing and arms no timeout: however its loop is scheduled, it never
    runs the [StartNow] transaction, and it ends only after its cancel
    function has been called. *)
Theorem DelayStart_without_old_task ctx service newTaskID delay r rt ch r' rt' :
  DelayStart ctx service None newTaskID delay true r rt = Returns ch r' rt' ->
  forall (tx : Tx) evs tx2 r2 rt2,
    loop_run ch evs (tx, r', rt') = Some (tx2, r2, rt2) ->
    tx2 = tx
    /\ exists l2,
         loops rt2 !! ch = Some l2
         /\ (loop_live l2
             \/ (loop_phase l2 = Ended false
                 /\ exists d, delays r' !! newTaskID = Some d
                             /\ cancel d ∈ fired rt2)).
Proof.
  unfold DelayStart, register.
  destruct (delays r !! newTaskID) as [old|]; [discriminate|].
  intros [= <- <- <-] tx evs tx2 r2 rt2 Hrun.
  eapply (loop_run_unsubscribed _ (unused rt)) in Hrun as (-> & l2 & Hl2 & Hst);
    [| simpl; apply lookup_insert_eq | reflexivity | reflexivity | reflexivity
     | left; intros b; discriminate].
  split; [reflexivity|]. exists l2. split; [exact Hl2|].
  destruct Hst as [Hlive|[Hend Hfired]]; [left; exact Hlive|].
  right. split; [exact Hend|]. simpl. rewrite lookup_insert_eq. eauto.
Qed.

(** A handle whose loop is blocked in a [select]: its cancellation. *)
Lemma blocked_loop_cancelled (tx : Tx) r rt id d l F u :
  runtime_ok r rt ->
  delays r !! id = Some d ->
  loops rt !! doneCh d = Some l ->
  loop_phase l = Delaying \/ loop_phase l = WaitingStop ->
  cancel d ∈ F ->
  (unused rt <= u)%nat ->
  let rt1 := {| fired := fired rt ∪ F; closed := closed rt;
                loops := loops rt; unused := u |} in
  (doneCh d ∉ closed rt1)
  /\ exists r' rt',
       loop_step (doneCh d) CtxDone (tx, r, rt1) = Some (tx, r', rt')
       /\ delays r' !! id = None
       /\ (doneCh d ∈ closed rt')
       /\ unused rt' = u
       /\ (forall ch, loops rt !! ch = None -> loops rt' !! ch = None)
       /\ (forall ch, ch ∈ closed rt' -> ch ∈ closed rt \/ ch = doneCh d)
       /\ runtime_ok r' rt'.
Proof.
  intros Hok Hd Hl Hph HF Hu rt1.
  destruct (proj1 Hok id d Hd) as (l0 & Hl0 & Hid & Hctx & Hlive & Hopen).
  rewrite Hl in Hl0. injection Hl0 as <-.
  split; [exact Hopen|].
  assert (Hok1 : runtime_ok r rt1).
  { eapply runtime_ok_fields; [..|exact Hok]; auto. }
  assert (Hstep : loop_step (doneCh d) CtxDone (tx, r, rt1)
                  = Some (teardown (doneCh d) l false (tx, r, rt1))).
  { unfold loop_step. simpl. rewrite Hl, Hctx. simpl.
    rewrite (bool_decide_eq_true_2 (cancel d ∈ fired rt ∪ F))
      by (apply elem_of_union; auto).
    destruct Hph as [-> | ->]; reflexivity. }
  simpl in Hstep. eexists _, _. split; [exact Hstep|]. simpl.
  split; [rewrite Hid; apply lookup_delete_eq|].
  split; [apply elem_of_union; right; apply elem_of_singleton; reflexivity|].
  split; [reflexivity|]. split.
  { intros ch Hch. rewrite lookup_insert_ne; [exact Hch|].
    intros <-. rewrite Hl in Hch. discriminate. }
  split.
  { intros ch Hch. apply elem_of_union in Hch as [Hch|Hch]; [auto|].
    apply elem_of_singleton in Hch. auto. }
  eapply runtime_ok_loop_step; [exact Hok1 | exact Hstep].
Qed.


(** X18: a second [DelayStart] for a task whose delay loop is blocked in a
    [select] registers nothing at first: it calls the cancel function of the
    registered handle and waits for its channel.  Once the old loop has
    ended, the head of [DelayStart] finds the task free and registers the new
    handle, with a loop that has not run yet; the old channel is closed, so
    the old loop has ended before the new one starts. *)
Theorem DelayStart_supersedes ctx (tx : Tx) service oldTask delay waitStop
    r rt id d l :
  runtime_ok r rt ->
  delays r !! id = Some d ->
  loops rt !! doneCh d = Some l ->
  loop_phase l = Delaying \/ loop_phase l = WaitingStop ->
  exists rt1 r2 rt2 r3 rt3 l3,
    DelayStart ctx service oldTask id delay waitStop r rt
    = Parks (doneCh d) r rt1
    /\ loop_step (doneCh d) CtxDone (tx, r, rt1) = Some (tx, r2, rt2)
    /\ register (unused rt) service oldTask id delay waitStop r2 rt2
       = Returns (unused rt) r3 rt3
    /\ delays r3 !! id
       = Some {| cancel := unused rt; doneCh := unused rt |}
    /\ loops rt3 !! unused rt = Some l3
    /\ loop_phase l3 = Spawned
    /\ (doneCh d ∈ closed rt3)
    /\ unused rt <> doneCh d.
Proof.
  intros Hok Hd Hl Hph.
  destruct (blocked_loop_cancelled tx r rt id d l {[cancel d]} (S (unused rt))
              Hok Hd Hl Hph ltac:(apply elem_of_singleton; reflexivity)
              ltac:(lia))
    as (Hopen & r2 & rt2 & Hstep & Hgone & Hclosed & _ & _ & _ & _).
  eexists _, r2, rt2, _, _, _.
  split.
  { unfold DelayStart, register. rewrite Hd. reflexivity. }
  split; [exact Hstep|].
  unfold register. rewrite Hgone. split; [reflexivity|]. simpl.
  rewrite !lookup_insert_eq. split; [reflexivity|]. split; [reflexivity|].
  split; [reflexivity|]. split; [exact Hclosed|].
  destruct (proj1 (proj2 Hok) _ _ Hl) as (Hlt & _). lia.
Qed.

End RuntimeProperties.

(** ** The further properties on concrete runs *)

Section MoreExamples.
#[local] Existing Instance demo_imports.
#[local] Existing Instance demo_new_task.
#[local] Existing Instance mem_store.

Lemma ledger_ok_new : ledger_ok NewRestartSupervisor.
Proof.
  split.
  - intros k [info Hk]. simpl in Hk. rewrite lookup_empty in Hk. discriminate.
  - intros sid s k Hs. simpl in Hs. rewrite lookup_empty in Hs. discriminate.
Qed.

Lemma runtime_ok_new : runtime_ok NewRestartSupervisor NewRuntime.
Proof.
  split; [|split].
  - intros id d Hd. simpl in Hd. rewrite lookup_empty in Hd. discriminate.
  - intros ch l Hl. simpl in Hl. rewrite lookup_empty in Hl. discriminate.
  - intros ch Hch. simpl in Hch. apply elem_of_empty in Hch. contradiction.
Qed.

(** The state of [demo_blocked_sup] and [demo_blocked_rt] is the one a
    [DelayStart] and a first scheduling of its loop lead to. *)
Lemma demo_blocked_ok : runtime_ok demo_blocked_sup demo_blocked_rt.
Proof.
  pose proof (runtime_ok_DelayStart Background (demo_service ModeReplicated None)
                (Some (demo_task "t1" 1)) "t2" 5 true
                NewRestartSupervisor NewRuntime runtime_ok_new) as Hok.
  eapply (runtime_ok_loop_step 0 Go (demo_tx [])); [exact Hok|].
  vm_compute. reflexivity.
Qed.

(** One restart recorded for instance 1 of "web": the service "db" is
    unknown, the service "web" is purged. *)
Lemma ClearServiceHistory_purge_witness :
  let service :=
    demo_service ModeReplicated (Some (demo_policy RestartOnAny 0 2 10)) in
  let r := recordRestartHistory 3 (demo_newTask "t2" service 1) service
             NewRestartSupervisor in
  ClearServiceHistory "db" r = r
  /\ history (ClearServiceHistory "web" r) !! demo_key = None.
Proof.
  cbv zeta.
  match goal with
  | |- ClearServiceHistory _ ?r = _ /\ _ =>
      destruct (ClearServiceHistory_purge "db" r) as (Hno & _);
      destruct (ClearServiceHistory_purge "web" r) as (_ & Hyes & _)
  end.
  split.
  - apply Hno. vm_compute. reflexivity.
  - rewrite (Hyes {[demo_key]} demo_key) by (vm_compute; reflexivity).
    vm_compute. reflexivity.
Defined.

Lemma ledger_ok_preserved_witness :
  let service :=
    demo_service ModeReplicated (Some (demo_policy RestartOnAny 0 2 10)) in
  ledger_ok (recordRestartHistory 3 (demo_newTask "t2" service 1) service
               NewRestartSupervisor)
  /\ ledger_ok (ClearServiceHistory "web" NewRestartSupervisor).
Proof.
  cbv zeta.
  destruct (ledger_ok_preserved (Tx := MemTx)) as [Hnew Hkeep].
  destruct (Hkeep NewRestartSupervisor Hnew) as (_ & Hrec & Hclear & _).
  split; [apply Hrec | apply Hclear].
Defined.

Lemma ClearServiceHistory_forgets_service_witness :
  let service :=
    demo_service ModeReplicated (Some (demo_policy RestartOnAny 0 2 10)) in
  let r := recordRestartHistory 3 (demo_newTask "t2" service 1) service
             NewRestartSupervisor in
  history (ClearServiceHistory "web" r) !! demo_key
  = if decide (serviceID demo_key = "web") then None
    else history r !! demo_key.
Proof.
  cbv zeta.
  apply ClearServiceHistory_forgets_service.
  apply ledger_ok_record, ledger_ok_new.
Defined.

(** One restart recorded under a lifetime limit of 1: after the purge the
    next restart is allowed. *)
Lemma ClearServiceHistory_resets_budget_witness :
  let service :=
    demo_service ModeReplicated (Some (demo_policy RestartOnAny 0 1 0)) in
  let r := recordRestartHistory 3 (demo_newTask "t2" service 1) service
             NewRestartSupervisor in
  (shouldRestart 4 (demo_task "t2" 1) service r).1 = false
  /\ shouldRestart 4 (demo_task "t2" 1) service (ClearServiceHistory "web" r)
     = (true, ClearServiceHistory "web" r).
Proof.
  cbv zeta. split; [vm_compute; reflexivity|].
  apply (ClearServiceHistory_resets_budget 4 (demo_task "t2" 1)).
  - apply ledger_ok_record, ledger_ok_new.
  - reflexivity.
Defined.

Lemma shouldRestart_refusal_cause_witness :
  let policy := demo_policy RestartOnAny 0 1 0 in
  let service := demo_service ModeReplicated (Some policy) in
  let r := demo_history demo_key 1 None in
  exists info,
    history r !! demo_key = Some info
    /\ (MaxAttempts policy <= totalRestarts info)%N.
Proof.
  cbv zeta.
  destruct (shouldRestart_refusal_cause 4 (demo_task "t1" 1)
              (demo_service ModeReplicated
                 (Some (demo_policy RestartOnAny 0 1 0)))
              (demo_history demo_key 1 None) (demo_history demo_key 1 None))
    as [[Hp _]|(policy & info & Hpol & _ & Hinfo & [(_ & Hle & _)|(Hw & _)])].
  - vm_compute. reflexivity.
  - vm_compute in Hp. discriminate.
  - injection Hpol as <-. exists info. split; [exact Hinfo | exact Hle].
  - injection Hpol as <-. exfalso. apply Hw. reflexivity.
Defined.

Lemma shouldRestart_later_clock_witness :
  let service :=
    demo_service ModeReplicated (Some (demo_policy RestartOnAny 0 2 10)) in
  (shouldRestart 20 (demo_task "t1" 1) service
     (demo_history demo_key 2 (Some [2; 5]))).1 = true.
Proof.
  cbv zeta.
  apply (shouldRestart_later_clock 12 20); [lia | vm_compute; reflexivity].
Defined.

Lemma pruneFront_chronological_witness :
  let l := [{| timestamp := 1 |}; {| timestamp := 5 |}; {| timestamp := 9 |}] in
  pruneFront 4 l = filter (fun e => 4 < timestamp e) l
  /\ Forall (fun e => 4 < timestamp e) (pruneFront 4 l)
  /\ chronological (pruneFront 4 l).
Proof.
  cbv zeta. apply pruneFront_chronological. simpl.
  repeat split; repeat constructor; simpl; lia.
Defined.

Lemma window_events_chronological_witness :
  let service :=
    demo_service ModeReplicated (Some (demo_policy RestartOnAny 0 2 10)) in
  let r := demo_history demo_key 2 (Some [2; 5]) in
  chronological
    (window_events (shouldRestart 12 (demo_task "t1" 1) service r).2 demo_key)
  /\ chronological
       (window_events
          (recordRestartHistory 12 (demo_newTask "t2" service 1) service r)
          demo_key).
Proof.
  cbv zeta.
  destruct (window_events_chronological (demo_history demo_key 2 (Some [2; 5])))
    as [Hs Hr].
  { intros k. unfold window_events, demo_history. simpl.
    destruct (decide (k = demo_key)) as [->|Hne].
    - rewrite lookup_singleton_eq. simpl.
      repeat split; repeat constructor; simpl; lia.
    - rewrite lookup_singleton_ne by congruence. exact I. }
  split; [apply Hs|]. apply Hr.
  vm_compute. repeat constructor; discriminate.
Defined.

(** Two restarts under a lifetime limit of 2. *)
Lemma Restart_lifetime_bound_witness :
  let service :=
    demo_service ModeReplicated (Some (demo_policy RestartOnAny 0 2 0)) in
  let calls := [demo_call "t1" "t2" 0; demo_call "t2" "t3" 5] in
  match RestartAll service calls NewRestartSupervisor NewRuntime with
  | Some (_, r', _) =>
      (total_restarts NewRestartSupervisor demo_key + 2 <= 2)%N
      /\ total_restarts r' demo_key
         = (total_restarts NewRestartSupervisor demo_key + 2)%N
  | None => False
  end.
Proof.
  cbv zeta.
  destruct (RestartAll _ _ _ _) as [[[tasks r'] rt']|] eqn:Hrun.
  - apply (Restart_lifetime_bound
             (demo_service ModeReplicated (Some (demo_policy RestartOnAny 0 2 0)))
             (demo_policy RestartOnAny 0 2 0)
             [demo_call "t1" "t2" 0; demo_call "t2" "t3" 5]
             NewRestartSupervisor NewRuntime tasks r' rt' demo_key).
    + reflexivity.
    + reflexivity.
    + split; reflexivity.
    + exact Hrun.
    + vm_compute in Hrun. injection Hrun as <- _ _. repeat constructor.
    + repeat constructor.
    + discriminate.
  - vm_compute in Hrun. discriminate.
Defined.

(** Two restarts at times 0 and 5 under a limit of 2 in a window of 10. *)
Lemma Restart_window_bound_witness :
  let service :=
    demo_service ModeReplicated (Some (demo_policy RestartOnAny 0 2 10)) in
  let calls := [demo_call "t1" "t2" 0; demo_call "t2" "t3" 5] in
  match RestartAll service calls NewRestartSupervisor NewRuntime with
  | Some _ => (N.of_nat (length calls) <= 2)%N
  | None => False
  end.
Proof.
  cbv zeta.
  destruct (RestartAll _ _ _ _) as [[[tasks r'] rt']|] eqn:Hrun.
  - apply (Restart_window_bound
             (demo_service ModeReplicated (Some (demo_policy RestartOnAny 0 2 10)))
             (demo_policy RestartOnAny 0 2 10)
             [demo_call "t1" "t2" 0; demo_call "t2" "t3" 5]
             NewRestartSupervisor NewRuntime tasks r' rt' demo_key).
    + reflexivity.
    + discriminate.
    + reflexivity.
    + reflexivity.
    + exact Hrun.
    + vm_compute in Hrun. injection Hrun as <- _ _. repeat constructor.
    + repeat constructor.
    + intros c c' Hc Hc'.
      repeat (apply elem_of_cons in Hc as [->|Hc]);
        try (apply elem_of_nil in Hc; contradiction);
        repeat (apply elem_of_cons in Hc' as [->|Hc']);
        try (apply elem_of_nil in Hc'; contradiction);
        reflexivity.
  - vm_compute in Hrun. discriminate.
Defined.

(** The identifier drawn for the replacement is taken: [CreateTask] fails. *)
Lemma Restart_without_replacement_witness :
  let out :=
    Restart Background (demo_tx [demo_task "t1" 1; demo_task "t2" 1])
      (demo_service ModeReplicated None) (demo_task "t1" 1) "t2" 0 0
      NewRestartSupervisor NewRuntime in
  out.1.1 = CreateFailed ErrExist
              (set_DesiredState 3
                 (demo_newTask "t2" (demo_service ModeReplicated None) 1))
  /\ returned out.1.1 = Some ErrExist
  /\ exists r1,
       out.2 = Returns () r1 NewRuntime
       /\ delays r1 = delays NewRestartSupervisor
       /\ historyByService r1 = historyByService NewRestartSupervisor
       /\ forall k, total_restarts r1 k = total_restarts NewRestartSupervisor k.
Proof.
  cbv zeta.
  assert (Hout :
    (Restart Background (demo_tx [demo_task "t1" 1; demo_task "t2" 1])
       (demo_service ModeReplicated None) (demo_task "t1" 1) "t2" 0 0
       NewRestartSupervisor NewRuntime).1.1
    = CreateFailed ErrExist
        (set_DesiredState 3
           (demo_newTask "t2" (demo_service ModeReplicated None) 1))).
  { vm_compute. reflexivity. }
  destruct (Restart_without_replacement Background
              (demo_tx [demo_task "t1" 1; demo_task "t2" 1])
              (demo_service ModeReplicated None) (demo_task "t1" 1) "t2" 0 0
              NewRestartSupervisor NewRuntime)
    as [Hsame Herr].
  { intros task d w. rewrite Hout. discriminate. }
  split; [exact Hout|]. split; [|exact Hsame].
  apply (Herr ErrExist _ Hout).
Defined.





(** A delay that waits for an old task it was not given: its loop, run and
    woken by the end of the delay, has not touched the store. *)
Lemma DelayStart_without_old_task_witness :
  let c := DelayStart Background (demo_service ModeReplicated None) None
             "t2" 5 true NewRestartSupervisor NewRuntime in
  match loop_run 0 [Go; DelayElapsed]
          (demo_tx [demo_task "t2" 1], Call_sup c, Call_rt c) with
  | Some (tx2, _, _) => tx2 = demo_tx [demo_task "t2" 1]
  | None => False
  end.
Proof.
  cbv zeta.
  destruct (loop_run _ _ _) as [[[tx2 r2] rt2]|] eqn:Hrun.
  - eapply (DelayStart_without_old_task Background
              (demo_service ModeReplicated None) "t2" 5
              NewRestartSupervisor NewRuntime 0%nat _ _ eq_refl).
    exact Hrun.
  - vm_compute in Hrun. discriminate.
Defined.


Lemma DelayStart_supersedes_witness :
  exists rt1 r2 rt2 r3 rt3 l3,
    DelayStart Background (demo_service ModeReplicated None)
      (Some (demo_task "t1" 1)) "t2" 7 false demo_blocked_sup demo_blocked_rt
    = Parks 0%nat demo_blocked_sup rt1
    /\ loop_step 0 CtxDone (demo_tx [], demo_blocked_sup, rt1)
       = Some (demo_tx [], r2, rt2)
    /\ register 1 (demo_service ModeReplicated None)
         (Some (demo_task "t1" 1)) "t2" 7 false r2 rt2
       = Returns 1%nat r3 rt3
    /\ delays r3 !! "t2" = Some {| cancel := 1%nat; doneCh := 1%nat |}
    /\ loops rt3 !! 1%nat = Some l3
    /\ loop_phase l3 = Spawned
    /\ (0%nat ∈ closed rt3)
    /\ 1%nat <> 0%nat.
Proof.
  apply (DelayStart_supersedes Background (demo_tx [])
           (demo_service ModeReplicated None) (Some (demo_task "t1" 1)) 7 false
           demo_blocked_sup demo_blocked_rt "t2"
           {| cancel := 0%nat; doneCh := 0%nat |}
           (set_phase Delaying demo_loop)).
  - exact demo_blocked_ok.
  - vm_compute. reflexivity.
  - vm_compute. reflexivity.
  - left. reflexivity.
Defined.

End MoreExamples.
